(** * ext4slower: the in-kernel latency tracer of [tools/ext4slower.py]

    A shallow embedding of the BPF program held in [bpf_text] (the four
    entry handlers, [trace_return] and its four wrappers) together with the
    textual replacements of [FILTER_US], [FILTER_PID] and
    [EXT4_FILE_OPERATIONS] that the Python driver performs before the
    program is loaded.

    Machine integers are [Z] with the wrap-around written out ([u64], [u32]);
    the hash [entryinfo] is a [gmap] keyed by the 64-bit pid/tgid value; the
    perf buffer [events] is the list of records handed to [perf_submit], in
    submission order.  Handlers run to completion, so each one is a function
    from the BPF state to the BPF state. *)

From Stdlib Require Import ZArith Ascii Lia.
From Stdlib.Strings Require Import Byte.
From Stdlib Require Import DecimalString DecimalPos DecimalZ.
From stdpp Require Import gmap list strings.

Local Open Scope Z_scope.

(** ** Machine integers *)

Definition u64 (z : Z) : Z := z mod 2 ^ 64.
Definition u32 (z : Z) : Z := z mod 2 ^ 32.

(** ** Data model *)

(** [struct val_t]: what an entry handler leaves for the return handler. *)
Record val_t := mk_val {
  val_ts : Z;        (* u64 ts *)
  val_offset : Z;    (* u64 offset *)
  val_fp : Z         (* struct file *fp, 0 is NULL *)
}.

(** [struct data_t]: the record submitted to user space. *)
Record data_t := mk_data {
  data_ts_us : Z;            (* u64 *)
  data_type : ascii;         (* R, W, O, S *)
  data_size : Z;             (* u32 *)
  data_offset : Z;           (* u64 *)
  data_delta_us : Z;         (* u64 *)
  data_pid : Z;              (* u32 *)
  data_task : list byte;     (* char task[TASK_COMM_LEN] *)
  data_file : list byte      (* char file[DNAME_INLINE_LEN] *)
}.

(** [struct kiocb], as far as the handlers read it. *)
Record kiocb := mk_kiocb {
  ki_filp : Z;       (* struct file * *)
  ki_pos : Z         (* loff_t *)
}.

(** The kernel memory a handler can observe through probe reads: every read
    yields some value, whatever the address. *)
Record kernel := mk_kernel {
  f_op : Z -> Z;                     (* file->f_op *)
  f_path_dentry : Z -> Z;            (* file->f_path.dentry *)
  d_name_len : Z -> Z;               (* dentry->d_name.len *)
  d_name_name : Z -> Z;              (* dentry->d_name.name *)
  probe_read : nat -> Z -> list byte (* the bytes a read of that size at that address gives *)
}.

(** What one probe invocation sees besides its arguments: the results of the
    BPF helpers, the return register and the kernel memory of that moment. *)
Record pt_regs := mk_ctx {
  bpf_get_current_pid_tgid : Z;
  bpf_ktime_get_ns : Z;
  bpf_get_current_comm : list byte;
  PT_REGS_RC : Z;
  kmem : kernel
}.

(** The command line ([min_ms], [-p PID]) and the address found in
    [/proc/kallsyms]; fixed for the whole session. *)
Record session := mk_session {
  min_ms : Z;
  pid : option Z;
  EXT4_FILE_OPERATIONS : Z
}.

(** [BPF_HASH(entryinfo, u64, struct val_t)] and [BPF_PERF_OUTPUT(events)]. *)
Record bpf := mk_bpf {
  entryinfo : gmap Z val_t;
  events : list data_t
}.

Definition bpf_init : bpf := mk_bpf ∅ [].

(** The eight attachment points. *)
Inductive probe :=
| kprobe_read (iocb : kiocb)
| kprobe_write (iocb : kiocb)
| kprobe_open (inode file : Z)
| kprobe_fsync (file : Z)
| kretprobe_read
| kretprobe_write
| kretprobe_open
| kretprobe_fsync.

(** ** The replaced macros *)

(** [FILTER_US] becomes [0] when [min_ms == 0] and [delta_us <= N] otherwise,
    [N] being the decimal text of [min_ms * 1000].  A non-negative constant is
    compared by value; a negated one is converted to the unsigned 64-bit type
    of [delta_us]. *)
Definition FILTER_US (s : session) (delta_us : Z) : bool :=
  if min_ms s =? 0 then false
  else
    let N := min_ms s * 1000 in
    delta_us <=? (if N <? 0 then u64 N else N).

(** [FILTER_PID] becomes [pid != P] when [-p P] was given and [0] otherwise.
    [pid] is a [u32]; a constant of type [int] is converted to it, a wider one
    is compared by value. *)
Definition FILTER_PID (s : session) (pid_ : Z) : bool :=
  match pid s with
  | None => false
  | Some P =>
      negb (pid_ =? (if (P <? 0) && (- 2 ^ 31 <? P) then u32 P else P))
  end.

(** ** The Python driver: symbol lookup and CSV output *)

(** [s.split(sep, maxsplit)] for a one-character separator; [None] is
    Python's default of no limit.  The result is never empty. *)
Fixpoint str_split (sep : ascii) (maxsplit : option nat) (s : string)
  : list string :=
  match s with
  | EmptyString => [EmptyString]
  | String c s' =>
      if Ascii.eqb c sep && negb (bool_decide (maxsplit = Some 0%nat))
      then EmptyString :: str_split sep (Nat.pred <$> maxsplit) s'
      else match str_split sep maxsplit s' with
           | part :: parts => String c part :: parts
           | [] => [String c EmptyString]
           end
  end.

(** [s.rstrip()]: the trailing white space goes; which characters are white
    space is the interpreter's [isspace]. *)
Fixpoint rstrip (isspace : ascii -> bool) (s : string) : string :=
  match s with
  | EmptyString => EmptyString
  | String c s' =>
      match rstrip isspace s' with
      | EmptyString => if isspace c then EmptyString else String c EmptyString
      | r => String c r
      end
  end.

(** [str.isspace] of Python 3 on the ASCII range. *)
Definition py_isspace (c : ascii) : bool :=
  let n := nat_of_ascii c in
  ((9 <=? n) && (n <=? 13) || (28 <=? n) && (n <=? 32))%nat.

(** [(addr, size, name) = parts]: a list of any other length raises
    [ValueError]. *)
Definition unpack3 (parts : list string) : option (string * string * string) :=
  match parts with
  | [addr; size; name] => Some (addr, size, name)
  | _ => None
  end.

(** The fields of one line of [/proc/kallsyms] and the symbol it names. *)
Definition kallsyms_fields (isspace : ascii -> bool) (line : string)
  : option (string * string * string) :=
  unpack3 (str_split " " (Some 2%nat) (rstrip isspace line)).

Definition symbol_of (name : string) : string :=
  List.hd EmptyString (str_split "009" None name).

(** The loop over the lines of [/proc/kallsyms]: [Some ops] when it ends
    (by [break] or at the end of the file, [ops] still empty), [None] when a
    line raises [ValueError]. *)
Fixpoint scan_kallsyms (isspace : ascii -> bool) (syms : list string)
  : option string :=
  match syms with
  | [] => Some EmptyString
  | line :: rest =>
      match kallsyms_fields isspace line with
      | Some (addr, size, name) =>
          if String.eqb (symbol_of name) "ext4_file_operations"
          then Some ("0x" +:+ addr)
          else scan_kallsyms isspace rest
      | None => None
      end
  end.

Inductive resolution :=
| Resolved (ops : string)   (* the text put in place of EXT4_FILE_OPERATIONS *)
| NoSymbol                  (* "ERROR: no ext4_file_operations ...", exit *)
| ValueError.               (* the tuple assignment failed *)

Definition resolve_ops (isspace : ascii -> bool) (syms : list string)
  : resolution :=
  match scan_kallsyms isspace syms with
  | None => ValueError
  | Some ops => if String.eqb ops EmptyString then NoSymbol else Resolved ops
  end.

(** A line that parses and names another symbol: the loop goes on. *)
Definition passed_over (isspace : ascii -> bool) (line : string) : Prop :=
  exists addr size name,
    kallsyms_fields isspace line = Some (addr, size, name) /\
    symbol_of name <> "ext4_file_operations"%string.

(** How often a character occurs. *)
Fixpoint count_char (c : ascii) (s : string) : nat :=
  match s with
  | EmptyString => 0
  | String a s' => (if Ascii.eqb a c then 1 else 0) + count_char c s'
  end.

(** Every character satisfies [P]. *)
Fixpoint all_chars (P : ascii -> bool) (s : string) : bool :=
  match s with
  | EmptyString => true
  | String c s' => P c && all_chars P s'
  end.

(** ["%d" % n]. *)
Definition fmt_d (n : Z) : string := NilZero.string_of_int (Z.to_int n).

(** The fields of an event as [print_event] uses them: the numbers, and
    the three character fields after [decode('utf-8', 'replace')]. *)
Record event := mk_event {
  ev_ts_us : Z;
  ev_task : string;
  ev_pid : Z;
  ev_type : string;
  ev_size : Z;
  ev_offset : Z;
  ev_delta_us : Z;
  ev_file : string
}.

(** The line [print_event] prints with [-j]. *)
Definition print_event_csv (e : event) : string :=
  fmt_d (ev_ts_us e) +:+ "," +:+ ev_task e +:+ "," +:+ fmt_d (ev_pid e) +:+ ","
  +:+ ev_type e +:+ "," +:+ fmt_d (ev_size e) +:+ "," +:+ fmt_d (ev_offset e)
  +:+ "," +:+ fmt_d (ev_delta_us e) +:+ "," +:+ ev_file e.

Definition csv_header : string :=
  "ENDTIME_us,TASK,PID,TYPE,BYTES,OFFSET_b,LATENCY_us,FILE".

(** ** A sample machine, for evaluating the handlers

    Files 1 and 2 are ext4 files named [data.txt]; file 3 belongs to another
    file system; the name of file 4 is being torn down (length 0). *)

Definition sample_ops : Z := 0xffffffff82042a40.

Definition sample_name : list byte := [x64; x61; x74; x61; x2e; x74; x78; x74]%byte.

Definition sample_kernel : kernel :=
  mk_kernel
    (fun fp => if fp =? 3 then 0xffffffff82051c00 else sample_ops)
    (fun fp => 0x1000 + fp)
    (fun de => if de =? 0x1004 then 0 else 8)
    (fun de => 0x38 + de)
    (fun n _ => take n (sample_name ++ replicate n x00%byte)).

(** Thread [tid] of process [tgid] at time [t] (ns), return register [rc]. *)
Definition sample_ctx (tgid tid t rc : Z) : pt_regs :=
  mk_ctx (Z.shiftl tgid 32 + tid) t [x63; x61; x74]%byte rc sample_kernel.

Definition BPF_HASH_entries : nat := Z.to_nat 10240.

(** Three command lines: [ext4slower 0], [ext4slower] and [ext4slower -p 185 0]. *)
Definition unfiltered : session := mk_session 0 None sample_ops.
Definition slower_than_10ms : session := mk_session 10 None sample_ops.
Definition only_pid_185 : session := mk_session 0 (Some 185) sample_ops.

Section Tracer.

(** Constants of the kernel headers and of the [BPF_HASH] macro, which the
    script does not define. *)
Variable max_entries : nat.
Variable TASK_COMM_LEN : nat.
Variable DNAME_INLINE_LEN : nat.

Variable s : session.

(** ** Map and perf-buffer operations *)

(** Modelled from the spec: the [update] method of the [BPF_HASH] table, whose
    definition is not part of the script.  It is an upsert into a table of
    fixed capacity: an existing key is replaced, a new key is inserted while
    there is room, and otherwise the call silently does nothing. *)
Definition entryinfo_update (id : Z) (val : val_t) (st : bpf) : bpf :=
  match entryinfo st !! id with
  | Some _ => mk_bpf (<[id := val]> (entryinfo st)) (events st)
  | None =>
      if (size (entryinfo st) <? max_entries)%nat
      then mk_bpf (<[id := val]> (entryinfo st)) (events st)
      else st
  end.

Definition entryinfo_delete (id : Z) (st : bpf) : bpf :=
  mk_bpf (delete id (entryinfo st)) (events st).

Definition perf_submit (data : data_t) (st : bpf) : bpf :=
  mk_bpf (entryinfo st) (events st ++ [data]).

(** [u64 id = bpf_get_current_pid_tgid(); u32 pid = id >> 32;] *)
Definition ctx_id (ctx : pt_regs) : Z := u64 (bpf_get_current_pid_tgid ctx).
Definition ctx_pid (ctx : pt_regs) : Z := u32 (Z.shiftr (ctx_id ctx) 32).

(** ** Entry handlers *)

Definition trace_read_entry (ctx : pt_regs) (iocb : kiocb) (st : bpf) : bpf :=
  let id := ctx_id ctx in
  let pid_ := ctx_pid ctx in
  if FILTER_PID s pid_ then st
  else
    let fp := ki_filp iocb in
    if negb (u64 (f_op (kmem ctx) fp) =? EXT4_FILE_OPERATIONS s) then st
    else
      let val := mk_val (u64 (bpf_ktime_get_ns ctx)) (u64 (ki_pos iocb)) fp in
      if negb (val_fp val =? 0) then entryinfo_update id val st else st.

Definition trace_write_entry (ctx : pt_regs) (iocb : kiocb) (st : bpf) : bpf :=
  let id := ctx_id ctx in
  let pid_ := ctx_pid ctx in
  if FILTER_PID s pid_ then st
  else
    let val :=
      mk_val (u64 (bpf_ktime_get_ns ctx)) (u64 (ki_pos iocb)) (ki_filp iocb) in
    if negb (val_fp val =? 0) then entryinfo_update id val st else st.

Definition trace_open_entry (ctx : pt_regs) (inode file : Z) (st : bpf) : bpf :=
  let id := ctx_id ctx in
  let pid_ := ctx_pid ctx in
  if FILTER_PID s pid_ then st
  else
    let val := mk_val (u64 (bpf_ktime_get_ns ctx)) 0 file in
    if negb (val_fp val =? 0) then entryinfo_update id val st else st.

Definition trace_fsync_entry (ctx : pt_regs) (file : Z) (st : bpf) : bpf :=
  let id := ctx_id ctx in
  let pid_ := ctx_pid ctx in
  if FILTER_PID s pid_ then st
  else
    let val := mk_val (u64 (bpf_ktime_get_ns ctx)) 0 file in
    if negb (val_fp val =? 0) then entryinfo_update id val st else st.

(** ** Return handler *)

(** [valp] points into the table; the fields read after [entryinfo.delete]
    are those of the record that was looked up. *)
Definition trace_return (ctx : pt_regs) (type : ascii) (st : bpf) : bpf :=
  let id := ctx_id ctx in
  let pid_ := ctx_pid ctx in
  match entryinfo st !! id with
  | None => st
  | Some valp =>
      let ts := u64 (bpf_ktime_get_ns ctx) in
      let delta_us := u64 (ts - val_ts valp) / 1000 in
      let st := entryinfo_delete id st in
      if FILTER_US s delta_us then st
      else
        let de := f_path_dentry (kmem ctx) (val_fp valp) in
        let qs_len := u32 (d_name_len (kmem ctx) de) in
        let qs_name := d_name_name (kmem ctx) de in
        if qs_len =? 0 then st
        else
          let data :=
            mk_data (ts / 1000) type (u32 (PT_REGS_RC ctx)) (val_offset valp)
                    delta_us pid_
                    (take TASK_COMM_LEN (bpf_get_current_comm ctx))
                    (probe_read (kmem ctx) DNAME_INLINE_LEN qs_name) in
          perf_submit data st
  end.

Definition trace_read_return (ctx : pt_regs) : bpf -> bpf := trace_return ctx "R".
Definition trace_write_return (ctx : pt_regs) : bpf -> bpf := trace_return ctx "W".
Definition trace_open_return (ctx : pt_regs) : bpf -> bpf := trace_return ctx "O".
Definition trace_fsync_return (ctx : pt_regs) : bpf -> bpf := trace_return ctx "S".

(** ** A tracing session: probes firing one after another *)

Definition fire (st : bpf) (ev : pt_regs * probe) : bpf :=
  let ctx := ev.1 in
  match ev.2 with
  | kprobe_read iocb => trace_read_entry ctx iocb st
  | kprobe_write iocb => trace_write_entry ctx iocb st
  | kprobe_open inode file => trace_open_entry ctx inode file st
  | kprobe_fsync file => trace_fsync_entry ctx file st
  | kretprobe_read => trace_read_return ctx st
  | kretprobe_write => trace_write_return ctx st
  | kretprobe_open => trace_open_return ctx st
  | kretprobe_fsync => trace_fsync_return ctx st
  end.

Definition run (trace : list (pt_regs * probe)) (st : bpf) : bpf :=
  fold_left fire trace st.


(** ** Derived views of the handlers, used to state and prove properties *)

Definition is_entry (p : probe) : bool :=
  match p with
  | kprobe_read _ | kprobe_write _ | kprobe_open _ _ | kprobe_fsync _ => true
  | _ => false
  end.

(** The record an entry probe hands to [entryinfo.update], when its guards
    let it reach that call. *)
Definition entry_val (ctx : pt_regs) (p : probe) : option val_t :=
  if FILTER_PID s (ctx_pid ctx) then None
  else
    let ts := u64 (bpf_ktime_get_ns ctx) in
    match p with
    | kprobe_read iocb =>
        if u64 (f_op (kmem ctx) (ki_filp iocb)) =? EXT4_FILE_OPERATIONS s
        then if ki_filp iocb =? 0 then None
             else Some (mk_val ts (u64 (ki_pos iocb)) (ki_filp iocb))
        else None
    | kprobe_write iocb =>
        if ki_filp iocb =? 0 then None
        else Some (mk_val ts (u64 (ki_pos iocb)) (ki_filp iocb))
    | kprobe_open _ file | kprobe_fsync file =>
        if file =? 0 then None else Some (mk_val ts 0 file)
    | _ => None
    end.

(** The same invocation seen with other operation tables behind the files. *)
Definition with_f_op (g : Z -> Z) (ctx : pt_regs) : pt_regs :=
  mk_ctx (bpf_get_current_pid_tgid ctx) (bpf_ktime_get_ns ctx)
         (bpf_get_current_comm ctx) (PT_REGS_RC ctx)
         (mk_kernel g (f_path_dentry (kmem ctx)) (d_name_len (kmem ctx))
                    (d_name_name (kmem ctx)) (probe_read (kmem ctx))).

(** The length of the name [trace_return] resolves from a stored handle. *)
Definition qs_len (ctx : pt_regs) (valp : val_t) : Z :=
  u32 (d_name_len (kmem ctx) (f_path_dentry (kmem ctx) (val_fp valp))).

(** Invariants of a session, as predicates on table entries and on events. *)
Definition table_inv (Q : Z -> val_t -> Prop) (st : bpf) : Prop :=
  map_Forall Q (entryinfo st).

Definition events_inv (R : data_t -> Prop) (st : bpf) : Prop :=
  Forall R (events st).

(** The letter a return probe passes to [trace_return]. *)
Definition return_type (p : probe) : option ascii :=
  match p with
  | kretprobe_read => Some "R"%char
  | kretprobe_write => Some "W"%char
  | kretprobe_open => Some "O"%char
  | kretprobe_fsync => Some "S"%char
  | _ => None
  end.

(** The offset and the file an entry probe captures. *)
Definition entry_offset (p : probe) : Z :=
  match p with
  | kprobe_read iocb | kprobe_write iocb => u64 (ki_pos iocb)
  | _ => 0
  end.

Definition entry_file (p : probe) : Z :=
  match p with
  | kprobe_read iocb | kprobe_write iocb => ki_filp iocb
  | kprobe_open _ file | kprobe_fsync file => file
  | _ => 0
  end.

(** The output struct [trace_return] populates from the record it found. *)
Definition populate (ctx : pt_regs) (type : ascii) (valp : val_t) : data_t :=
  let ts := u64 (bpf_ktime_get_ns ctx) in
  mk_data (ts / 1000) type (u32 (PT_REGS_RC ctx)) (val_offset valp)
          (u64 (ts - val_ts valp) / 1000) (ctx_pid ctx)
          (take TASK_COMM_LEN (bpf_get_current_comm ctx))
          (probe_read (kmem ctx) DNAME_INLINE_LEN
             (d_name_name (kmem ctx) (f_path_dentry (kmem ctx) (val_fp valp)))).

(** What [trace_return] hands to [perf_submit], given what [lookup] found. *)
Definition submitted (ctx : pt_regs) (type : ascii) (found : option val_t)
  : list data_t :=
  match found with
  | None => []
  | Some valp =>
      if FILTER_US s (u64 (u64 (bpf_ktime_get_ns ctx) - val_ts valp) / 1000)
      then []
      else if qs_len ctx valp =? 0 then []
      else [populate ctx type valp]
  end.

(** The return probes of a trace. *)
Definition count_returns (trace : list (pt_regs * probe)) : nat :=
  length (List.filter (fun ev => negb (is_entry ev.2)) trace).

(** * Basic facts *)

Lemma u64_range z : 0 <= u64 z < 2 ^ 64.
Proof. unfold u64. apply Z.mod_pos_bound. lia. Qed.

Lemma u32_range z : 0 <= u32 z < 2 ^ 32.
Proof. unfold u32. apply Z.mod_pos_bound. lia. Qed.

Lemma u64_id z : 0 <= z < 2 ^ 64 -> u64 z = z.
Proof. intros. unfold u64. apply Z.mod_small. lia. Qed.

Lemma FILTER_PID_pass P p :
  pid s = Some P -> 0 <= P -> FILTER_PID s p = false -> p = P.
Proof.
  unfold FILTER_PID. intros -> HP.
  replace (P <? 0) with false by (symmetry; apply Z.ltb_ge; lia).
  cbn [andb]. intros H. apply negb_false_iff in H. lia.
Qed.

Lemma FILTER_PID_block P p :
  pid s = Some P -> 0 <= P -> p <> P -> FILTER_PID s p = true.
Proof.
  unfold FILTER_PID. intros -> HP Hne.
  replace (P <? 0) with false by (symmetry; apply Z.ltb_ge; lia).
  cbn [andb]. apply negb_true_iff. lia.
Qed.

Lemma FILTER_US_pass d :
  0 < min_ms s -> FILTER_US s d = false -> min_ms s * 1000 < d.
Proof.
  unfold FILTER_US. intros HT.
  destruct (Z.eqb_spec (min_ms s) 0) as [|_]; [lia|].
  destruct (Z.ltb_spec (min_ms s * 1000) 0); [lia|].
  intros Hgt. apply Z.leb_gt in Hgt. lia.
Qed.

Lemma FILTER_US_zero d : min_ms s = 0 -> FILTER_US s d = false.
Proof. unfold FILTER_US. intros ->. reflexivity. Qed.

(** ** The table *)

Lemma entryinfo_update_events id val st :
  events (entryinfo_update id val st) = events st.
Proof. unfold entryinfo_update. repeat case_match; reflexivity. Qed.

Lemma entryinfo_update_ne id val st k :
  k <> id -> entryinfo (entryinfo_update id val st) !! k = entryinfo st !! k.
Proof.
  intros Hne. unfold entryinfo_update.
  repeat case_match; cbn; rewrite ?lookup_insert_ne; auto.
Qed.

Lemma entryinfo_update_cases id val st :
  entryinfo_update id val st = st \/
  entryinfo_update id val st = mk_bpf (<[id := val]> (entryinfo st)) (events st).
Proof. unfold entryinfo_update. repeat case_match; auto. Qed.

Lemma entryinfo_update_present id val st :
  is_Some (entryinfo st !! id) ->
  entryinfo_update id val st = mk_bpf (<[id := val]> (entryinfo st)) (events st).
Proof. intros [v Hv]. unfold entryinfo_update. rewrite Hv. reflexivity. Qed.

Lemma entryinfo_update_room id val st :
  (size (entryinfo st) < max_entries)%nat ->
  entryinfo_update id val st = mk_bpf (<[id := val]> (entryinfo st)) (events st).
Proof.
  intros Hroom. unfold entryinfo_update.
  apply Nat.ltb_lt in Hroom. rewrite Hroom. case_match; reflexivity.
Qed.

Lemma entryinfo_update_lookup id val st valp :
  entryinfo (entryinfo_update id val st) !! id = Some valp -> valp = val.
Proof.
  unfold entryinfo_update.
  destruct (entryinfo st !! id) eqn:Hl; cbn.
  - rewrite lookup_insert_eq. congruence.
  - case_match; cbn; [rewrite lookup_insert_eq | rewrite Hl]; congruence.
Qed.

Lemma entryinfo_update_Forall (Q : Z -> val_t -> Prop) id val st :
  Q id val ->
  map_Forall Q (entryinfo st) ->
  map_Forall Q (entryinfo (entryinfo_update id val st)).
Proof.
  intros HQ Hall.
  destruct (entryinfo_update_cases id val st) as [-> | ->]; [assumption|].
  cbn. apply map_Forall_insert_2; assumption.
Qed.

(** ** Entry handlers through [entry_val] *)

Lemma fire_entry st ctx p :
  is_entry p = true ->
  fire st (ctx, p) =
    match entry_val ctx p with
    | Some val => entryinfo_update (ctx_id ctx) val st
    | None => st
    end.
Proof.
  destruct p; cbn; try discriminate; intros _;
    unfold trace_read_entry, trace_write_entry, trace_open_entry,
      trace_fsync_entry, entry_val; cbn;
    repeat (case_match; cbn in *; try congruence; try reflexivity).
Qed.

Lemma fire_return st ctx p :
  is_entry p = false -> exists type, fire st (ctx, p) = trace_return ctx type st.
Proof. destruct p; cbn; try discriminate; intros _; eexists; reflexivity. Qed.

Lemma entry_val_Some ctx p val :
  entry_val ctx p = Some val ->
  FILTER_PID s (ctx_pid ctx) = false /\
  val_ts val = u64 (bpf_ktime_get_ns ctx) /\
  val_fp val <> 0.
Proof.
  unfold entry_val. destruct (FILTER_PID s (ctx_pid ctx)); [discriminate|].
  destruct p; repeat case_match; intros; simplify_eq; cbn; repeat split; lia.
Qed.

(** ** The return handler, branch by branch *)

Lemma trace_return_None ctx type st :
  entryinfo st !! ctx_id ctx = None -> trace_return ctx type st = st.
Proof. intros H. unfold trace_return. rewrite H. reflexivity. Qed.

Lemma trace_return_Some ctx type st valp :
  entryinfo st !! ctx_id ctx = Some valp ->
  let ts := u64 (bpf_ktime_get_ns ctx) in
  let delta_us := u64 (ts - val_ts valp) / 1000 in
  let st' := entryinfo_delete (ctx_id ctx) st in
  trace_return ctx type st =
    if FILTER_US s delta_us then st'
    else if qs_len ctx valp =? 0 then st'
    else perf_submit
           (mk_data (ts / 1000) type (u32 (PT_REGS_RC ctx)) (val_offset valp)
                    delta_us (ctx_pid ctx)
                    (take TASK_COMM_LEN (bpf_get_current_comm ctx))
                    (probe_read (kmem ctx) DNAME_INLINE_LEN
                       (d_name_name (kmem ctx)
                          (f_path_dentry (kmem ctx) (val_fp valp)))))
           st'.
Proof. intros H. unfold trace_return, qs_len. rewrite H. reflexivity. Qed.

Lemma app_one_neq {A} (l : list A) (x : A) : l <> l ++ [x].
Proof.
  intros H. apply (f_equal length) in H. rewrite length_app in H. cbn in H. lia.
Qed.

(** Whatever [trace_return] appends to [events] was built from a record found
    under the caller's id, passed [FILTER_US] and had a name. *)
Lemma trace_return_emits ctx type st e :
  events (trace_return ctx type st) = events st ++ [e] ->
  exists valp,
    entryinfo st !! ctx_id ctx = Some valp /\
    data_delta_us e = u64 (u64 (bpf_ktime_get_ns ctx) - val_ts valp) / 1000 /\
    FILTER_US s (data_delta_us e) = false /\
    qs_len ctx valp <> 0 /\
    data_pid e = ctx_pid ctx /\
    data_size e = u32 (PT_REGS_RC ctx) /\
    data_offset e = val_offset valp /\
    data_type e = type.
Proof.
  destruct (entryinfo st !! ctx_id ctx) as [valp|] eqn:Hl.
  - rewrite (trace_return_Some _ _ _ _ Hl). cbv zeta.
    destruct (FILTER_US s _) eqn:HF; cbn.
    { intros H. destruct (app_one_neq _ _ H). }
    destruct (Z.eqb_spec (qs_len ctx valp) 0) as [Hz|Hnz]; cbn.
    { intros H. destruct (app_one_neq _ _ H). }
    intros H. apply app_inv_head in H. injection H as <-.
    exists valp. cbn. repeat split; auto.
  - rewrite (trace_return_None _ _ _ Hl).
    intros H. destruct (app_one_neq _ _ H).
Qed.

Lemma trace_return_events ctx type st :
  events (trace_return ctx type st) = events st \/
  exists e, events (trace_return ctx type st) = events st ++ [e].
Proof.
  unfold trace_return. repeat case_match; cbn; eauto.
Qed.

Lemma trace_return_entryinfo ctx type st k :
  entryinfo (trace_return ctx type st) !! k =
    if decide (k = ctx_id ctx) then None else entryinfo st !! k.
Proof.
  destruct (entryinfo st !! ctx_id ctx) as [valp|] eqn:Hl.
  - rewrite (trace_return_Some _ _ _ _ Hl). cbv zeta.
    repeat case_match; cbn; subst;
      rewrite ?lookup_delete_eq, ?lookup_delete_ne; congruence.
  - rewrite (trace_return_None _ _ _ Hl). case_decide; congruence.
Qed.

(** ** Sessions *)

Lemma run_invariant (I : bpf -> Prop) :
  (forall st ev, I st -> I (fire st ev)) ->
  forall trace st, I st -> I (run trace st).
Proof.
  intros Hstep trace. induction trace as [|ev trace IH]; intros st Hst.
  - exact Hst.
  - cbn. apply IH, Hstep, Hst.
Qed.

Lemma fire_entry_events st ctx p :
  is_entry p = true -> events (fire st (ctx, p)) = events st.
Proof.
  intros Hp. rewrite fire_entry by assumption.
  case_match; [apply entryinfo_update_events | reflexivity].
Qed.

(** Probes of other execution contexts leave the record of [id] alone. *)
Lemma fire_other st ev id :
  ctx_id ev.1 <> id -> entryinfo (fire st ev) !! id = entryinfo st !! id.
Proof.
  destruct ev as [ctx p]. cbn [fst]. intros Hne.
  destruct (is_entry p) eqn:Hp.
  - rewrite fire_entry by assumption.
    case_match; [apply entryinfo_update_ne; congruence | reflexivity].
  - destruct (fire_return st ctx p Hp) as [type ->].
    rewrite trace_return_entryinfo. case_decide; congruence.
Qed.

Lemma run_other trace st id :
  Forall (fun ev => ctx_id ev.1 <> id) trace ->
  entryinfo (run trace st) !! id = entryinfo st !! id.
Proof.
  intros Hall. revert st.
  induction Hall as [|ev trace Hev _ IH]; intros st; [reflexivity|].
  cbn. rewrite IH. apply fire_other, Hev.
Qed.

(** An entry probe that reaches [update] while the table has the key or has
    room leaves exactly its record under the caller's id. *)
Lemma entry_recorded st ctx p val :
  is_entry p = true ->
  entry_val ctx p = Some val ->
  is_Some (entryinfo st !! ctx_id ctx) \/
    (size (entryinfo st) < max_entries)%nat ->
  fire st (ctx, p) = mk_bpf (<[ctx_id ctx := val]> (entryinfo st)) (events st).
Proof.
  intros Hp Hval Hroom. rewrite fire_entry by assumption. rewrite Hval.
  destruct Hroom; [apply entryinfo_update_present | apply entryinfo_update_room];
    assumption.
Qed.

Lemma fire_table_inv (Q : Z -> val_t -> Prop) :
  (forall ctx p val, entry_val ctx p = Some val -> Q (ctx_id ctx) val) ->
  forall st ev, table_inv Q st -> table_inv Q (fire st ev).
Proof.
  intros HQ st [ctx p] Hst. unfold table_inv in *.
  destruct (is_entry p) eqn:Hp.
  - rewrite fire_entry by assumption.
    destruct (entry_val ctx p) as [val|] eqn:Hval; [|assumption].
    apply entryinfo_update_Forall; eauto.
  - destruct (fire_return st ctx p Hp) as [type ->].
    intros k v. rewrite trace_return_entryinfo.
    case_decide; [discriminate|]. apply Hst.
Qed.

Lemma fire_events_inv (R : data_t -> Prop) st ev :
  (forall type e,
      events (trace_return ev.1 type st) = events st ++ [e] -> R e) ->
  events_inv R st -> events_inv R (fire st ev).
Proof.
  destruct ev as [ctx p]. cbn [fst]. unfold events_inv. intros HR Hst.
  destruct (is_entry p) eqn:Hp.
  - rewrite fire_entry_events by assumption. assumption.
  - destruct (fire_return st ctx p Hp) as [type Hfire]. rewrite Hfire.
    destruct (trace_return_events ctx type st) as [-> | [e He]]; [assumption|].
    rewrite He. apply Forall_app. split; [assumption|].
    constructor; [eapply HR; eassumption | constructor].
Qed.

(** * The claims *)

(** C1: duration filter.  For a return handler that finds its entry record:
    with a positive threshold [min_ms] (milliseconds, compared as
    [min_ms * 1000] microseconds) an event is appended only when its latency
    is strictly above the threshold, a latency at or below it appends nothing,
    and no event of any session run from the initial state has a latency at or
    below it; with threshold zero the filter lets every such operation through,
    so an operation with a non-empty name appends exactly one event. *)
Theorem C1_duration_filter ctx type st valp :
  entryinfo st !! ctx_id ctx = Some valp ->
  let delta_us := u64 (u64 (bpf_ktime_get_ns ctx) - val_ts valp) / 1000 in
  let st' := trace_return ctx type st in
  (0 < min_ms s ->
     (forall e, events st' = events st ++ [e] ->
                min_ms s * 1000 < data_delta_us e) /\
     (delta_us <= min_ms s * 1000 -> events st' = events st) /\
     (forall trace,
        Forall (fun e => min_ms s * 1000 < data_delta_us e)
               (events (run trace bpf_init)))) /\
  (min_ms s = 0 ->
     FILTER_US s delta_us = false /\
     (qs_len ctx valp <> 0 ->
      exists e, events st' = events st ++ [e] /\ data_delta_us e = delta_us)).
Proof.
  intros Hfound delta_us st'. split.
  - intros HT. repeat split.
    + intros e He. apply trace_return_emits in He as (v & _ & _ & HF & _).
      apply FILTER_US_pass; assumption.
    + intros Hle. subst st'. rewrite (trace_return_Some _ _ _ _ Hfound).
      cbv zeta. fold delta_us.
      assert (FILTER_US s delta_us = true) as ->; [|reflexivity].
      unfold FILTER_US.
      destruct (Z.eqb_spec (min_ms s) 0); [lia|].
      destruct (Z.ltb_spec (min_ms s * 1000) 0); [lia|].
      apply Z.leb_le. assumption.
    + intros trace.
      apply (run_invariant
               (events_inv (fun e => min_ms s * 1000 < data_delta_us e))).
      * intros st0 ev. apply fire_events_inv. intros ty e He.
        apply trace_return_emits in He as (v & _ & _ & HF & _).
        apply FILTER_US_pass; assumption.
      * constructor.
  - intros H0. split; [apply FILTER_US_zero, H0|].
    intros Hname. subst st'. rewrite (trace_return_Some _ _ _ _ Hfound).
    cbv zeta. fold delta_us. rewrite (FILTER_US_zero _ H0).
    destruct (Z.eqb_spec (qs_len ctx valp) 0); [contradiction|].
    eexists. split; reflexivity.
Qed.

(** C2 (amended): an entry probe passes its guards (pid filter, non-null file
    handle and, for a read, the ext4 test), probes of other execution contexts
    fire in between, and the return probe of the same context fires.  If that
    return appends an event, its latency is the 64-bit difference of the two
    nanosecond clock readings divided by 1000 and rounded down: whole
    microseconds, never negative, and less than one microsecond below the
    true difference when the clock did not wrap. *)
Theorem C2_latency_whole_microseconds st c1 p val others c2 type e :
  is_entry p = true ->
  entry_val c1 p = Some val ->
  Forall (fun ev => ctx_id ev.1 <> ctx_id c1) others ->
  ctx_id c2 = ctx_id c1 ->
  let st2 := run others (fire st (c1, p)) in
  events (trace_return c2 type st2) = events st2 ++ [e] ->
  let entryTimestamp := u64 (bpf_ktime_get_ns c1) in
  let returnTimestamp := u64 (bpf_ktime_get_ns c2) in
  data_delta_us e = u64 (returnTimestamp - entryTimestamp) / 1000 /\
  0 <= data_delta_us e /\
  (entryTimestamp <= returnTimestamp ->
   data_delta_us e = (returnTimestamp - entryTimestamp) / 1000 /\
   data_delta_us e * 1000 <= returnTimestamp - entryTimestamp
     < data_delta_us e * 1000 + 1000).
Proof.
  intros Hp Hval Hothers Hid st2 He t1 t2.
  apply trace_return_emits in He as (valp & Hl & Hd & _).
  subst st2. rewrite Hid, run_other in Hl by assumption.
  rewrite fire_entry, Hval in Hl by assumption.
  apply entryinfo_update_lookup in Hl as ->.
  destruct (entry_val_Some _ _ _ Hval) as (_ & Hts & _).
  rewrite Hts in Hd. fold t1 t2 in Hd.
  pose proof (u64_range (t2 - t1)) as Hr.
  split; [exact Hd|]. split.
  - rewrite Hd. apply Z.div_pos; lia.
  - intros Hle.
    pose proof (u64_range (bpf_ktime_get_ns c1)) as H1.
    pose proof (u64_range (bpf_ktime_get_ns c2)) as H2.
    fold t1 in H1. fold t2 in H2.
    rewrite (u64_id (t2 - t1)) in Hd by lia.
    split; [exact Hd|]. rewrite Hd.
    pose proof (Z.mul_div_le (t2 - t1) 1000 ltac:(lia)).
    pose proof (Z.mul_succ_div_gt (t2 - t1) 1000 ltac:(lia)).
    lia.
Qed.

(** C3: when the return handler finds a record under its id, the table it
    leaves is the old one with that id deleted, whatever the duration filter
    and the name check decide afterwards: the resulting state is the deleted
    table with at most one event appended, and the id has no record left. *)
Theorem C3_record_removed ctx type st valp :
  entryinfo st !! ctx_id ctx = Some valp ->
  let st' := trace_return ctx type st in
  entryinfo st' = delete (ctx_id ctx) (entryinfo st) /\
  entryinfo st' !! ctx_id ctx = None /\
  (st' = entryinfo_delete (ctx_id ctx) st \/
   exists e, st' = perf_submit e (entryinfo_delete (ctx_id ctx) st)).
Proof.
  intros Hfound st'. subst st'.
  rewrite (trace_return_Some _ _ _ _ Hfound). cbv zeta.
  repeat case_match; cbn; rewrite ?lookup_delete_eq; eauto.
Qed.

(** C4: a return handler whose id has no record changes nothing: same table,
    same events. *)
Theorem C4_return_without_entry ctx type st :
  entryinfo st !! ctx_id ctx = None ->
  trace_return ctx type st = st.
Proof.
  intros Hnone. unfold trace_return. rewrite Hnone. reflexivity.
Qed.

(** C5 (amended): a record is pending for an id and a second entry probe of
    the same id reaches the [update] call (it passes the pid filter, its file
    handle is not null and, for a read, its file is an ext4 file).  Then the
    second record replaces the first: the table holds exactly the second
    record under the id, it has not grown, other ids are untouched, and a
    following return of that id computes its latency from the second entry's
    timestamp and reports the second entry's offset. *)
Theorem C5_last_write_wins st c1 p1 c2 p2 val2 c3 type :
  is_entry p1 = true ->
  is_entry p2 = true ->
  ctx_id c2 = ctx_id c1 ->
  ctx_id c3 = ctx_id c1 ->
  is_Some (entryinfo (fire st (c1, p1)) !! ctx_id c1) ->
  entry_val c2 p2 = Some val2 ->
  let st1 := fire st (c1, p1) in
  let st2 := fire st1 (c2, p2) in
  entryinfo st2 !! ctx_id c1 = Some val2 /\
  val_ts val2 = u64 (bpf_ktime_get_ns c2) /\
  size (entryinfo st2) = size (entryinfo st1) /\
  (forall k, k <> ctx_id c1 -> entryinfo st2 !! k = entryinfo st1 !! k) /\
  (forall e, events (trace_return c3 type st2) = events st2 ++ [e] ->
     data_delta_us e =
       u64 (u64 (bpf_ktime_get_ns c3) - u64 (bpf_ktime_get_ns c2)) / 1000 /\
     data_offset e = val_offset val2).
Proof.
  intros Hp1 Hp2 Hid2 Hid3 Hfirst Hval2 st1 st2.
  assert (Hst2 : st2 =
            mk_bpf (<[ctx_id c1 := val2]> (entryinfo st1)) (events st1)).
  { subst st2. rewrite <- Hid2. apply entry_recorded; auto.
    left. rewrite Hid2. exact Hfirst. }
  destruct (entry_val_Some _ _ _ Hval2) as (_ & Hts & _).
  rewrite Hst2. cbn [entryinfo events].
  split; [apply lookup_insert_eq|]. split; [exact Hts|]. split.
  - destruct Hfirst as [v1 Hv1]. fold st1 in Hv1.
    rewrite <- (insert_id (entryinfo st1) _ _ Hv1) at 2.
    rewrite <- (insert_delete_eq (entryinfo st1) (ctx_id c1) val2).
    rewrite <- (insert_delete_eq (entryinfo st1) (ctx_id c1) v1).
    rewrite !map_size_insert_None by apply lookup_delete_eq. reflexivity.
  - split; [intros k Hk; apply lookup_insert_ne; congruence|].
    intros e He.
    apply (trace_return_emits c3 type (mk_bpf _ (events st1))) in He
      as (valp & Hl & Hd & _ & _ & _ & _ & Ho & _).
    cbn in Hl. rewrite Hid3, lookup_insert_eq in Hl. injection Hl as <-.
    rewrite Hts in Hd. split; assumption.
Qed.

(** C6: with [-p P] (a process id, not negative) every entry handler running in a
    process other than [P] returns the state unchanged, and every event of
    every session run from the initial state carries process id [P]; without
    [-p] the filter rejects no process id. *)
Theorem C6_pid_filter :
  (forall P, pid s = Some P -> 0 <= P ->
     (forall st ctx p, is_entry p = true -> ctx_pid ctx <> P ->
                       fire st (ctx, p) = st) /\
     (forall trace,
        Forall (fun e => data_pid e = P) (events (run trace bpf_init)))) /\
  (pid s = None -> forall ctx, FILTER_PID s (ctx_pid ctx) = false).
Proof.
  split.
  - intros P HP Hpos. split.
    + intros st ctx p Hp Hne. rewrite fire_entry by assumption.
      unfold entry_val.
      rewrite (FILTER_PID_block P) by assumption. reflexivity.
    + intros trace.
      pose (I := fun st =>
        table_inv (fun k _ => u32 (Z.shiftr k 32) = P) st /\
        events_inv (fun e => data_pid e = P) st).
      assert (HI : I (run trace bpf_init)); [|apply HI].
      apply run_invariant.
      * intros st ev [Htab Hev]. split.
        -- revert Htab. apply fire_table_inv. intros ctx p val Hval.
           destruct (entry_val_Some _ _ _ Hval) as (HF & _).
           apply (FILTER_PID_pass P) in HF; assumption.
        -- revert Hev. apply fire_events_inv. intros ty e He.
           apply trace_return_emits in He as (valp & Hl & _ & _ & _ & Hpid & _).
           rewrite Hpid. exact (Htab _ _ Hl).
      * split; [apply map_Forall_empty | constructor].
  - intros HN ctx. unfold FILTER_PID. rewrite HN. reflexivity.
Qed.

(** C7: only the read entry handler compares the file's operation table
    with [EXT4_FILE_OPERATIONS].  For a caller that passes the pid filter with
    a non-null file handle and a table that can take the record, the read
    handler leaves the state unchanged when the comparison fails and records
    the operation when it succeeds, while the write, open and fsync handlers
    record the operation on that same file whatever its operation table is:
    their result is the same under any other operation tables. *)
Theorem C7_only_read_checks_f_op st ctx iocb inode :
  FILTER_PID s (ctx_pid ctx) = false ->
  ki_filp iocb <> 0 ->
  is_Some (entryinfo st !! ctx_id ctx) \/
    (size (entryinfo st) < max_entries)%nat ->
  let id := ctx_id ctx in
  let ts := u64 (bpf_ktime_get_ns ctx) in
  let fp := ki_filp iocb in
  (u64 (f_op (kmem ctx) fp) <> EXT4_FILE_OPERATIONS s ->
   trace_read_entry ctx iocb st = st) /\
  (u64 (f_op (kmem ctx) fp) = EXT4_FILE_OPERATIONS s ->
   entryinfo (trace_read_entry ctx iocb st) !! id =
     Some (mk_val ts (u64 (ki_pos iocb)) fp)) /\
  entryinfo (trace_write_entry ctx iocb st) !! id =
    Some (mk_val ts (u64 (ki_pos iocb)) fp) /\
  entryinfo (trace_open_entry ctx inode fp st) !! id = Some (mk_val ts 0 fp) /\
  entryinfo (trace_fsync_entry ctx fp st) !! id = Some (mk_val ts 0 fp) /\
  (forall g,
     trace_write_entry (with_f_op g ctx) iocb st = trace_write_entry ctx iocb st /\
     trace_open_entry (with_f_op g ctx) inode fp st
       = trace_open_entry ctx inode fp st /\
     trace_fsync_entry (with_f_op g ctx) fp st = trace_fsync_entry ctx fp st).
Proof.
  intros HF Hfp Hroom id ts fp.
  assert (Hany : forall g,
     trace_write_entry (with_f_op g ctx) iocb st = trace_write_entry ctx iocb st /\
     trace_open_entry (with_f_op g ctx) inode fp st
       = trace_open_entry ctx inode fp st /\
     trace_fsync_entry (with_f_op g ctx) fp st = trace_fsync_entry ctx fp st)
    by (intros g; repeat split; reflexivity).
  assert (Hup : forall val,
             entryinfo (entryinfo_update id val st) !! id = Some val).
  { intros val.
    destruct Hroom as [Hk|Hr];
      [rewrite entryinfo_update_present by assumption
      |rewrite entryinfo_update_room by assumption];
      apply lookup_insert_eq. }
  assert (Hfp0 : (fp =? 0) = false) by (apply Z.eqb_neq; assumption).
  split; [|split; [|split; [|split; [|split; [|exact Hany]]]]];
    unfold trace_read_entry, trace_write_entry, trace_open_entry,
      trace_fsync_entry; rewrite HF; cbn [val_fp]; fold id ts fp;
    rewrite Hfp0; cbn [negb]; try apply Hup.
  - intros Hne.
    destruct (Z.eqb_spec (u64 (f_op (kmem ctx) fp)) (EXT4_FILE_OPERATIONS s));
      [contradiction | reflexivity].
  - intros Heq.
    destruct (Z.eqb_spec (u64 (f_op (kmem ctx) fp)) (EXT4_FILE_OPERATIONS s));
      [apply Hup | contradiction].
Qed.

(** C8: a return that passes the duration filter but resolves a name of
    length zero appends no event; the record is dropped and nothing else
    happens. *)
Theorem C8_zero_length_name ctx type st valp :
  entryinfo st !! ctx_id ctx = Some valp ->
  FILTER_US s (u64 (u64 (bpf_ktime_get_ns ctx) - val_ts valp) / 1000) = false ->
  qs_len ctx valp = 0 ->
  events (trace_return ctx type st) = events st /\
  trace_return ctx type st = entryinfo_delete (ctx_id ctx) st.
Proof.
  intros Hfound HF Hz. rewrite (trace_return_Some _ _ _ _ Hfound). cbv zeta.
  rewrite HF, Hz. cbn. split; reflexivity.
Qed.

(** C9: an entry handler given a null file handle returns the state
    unchanged; an entry handler either changes nothing or puts under its id a
    record whose handle is not null; every probe preserves "all records have a
    non-null handle"; hence in every session run from the initial state every
    record of the table, in particular the one a return handler
    dereferences, has a non-null handle. *)
Theorem C9_stored_handle_non_null :
  (forall st ctx iocb inode,
     ki_filp iocb = 0 ->
     trace_read_entry ctx iocb st = st /\
     trace_write_entry ctx iocb st = st /\
     trace_open_entry ctx inode 0 st = st /\
     trace_fsync_entry ctx 0 st = st) /\
  (forall st ctx p,
     is_entry p = true ->
     fire st (ctx, p) = st \/
     exists val,
       fire st (ctx, p) =
         mk_bpf (<[ctx_id ctx := val]> (entryinfo st)) (events st) /\
       val_fp val <> 0) /\
  (forall st ev,
     table_inv (fun _ val => val_fp val <> 0) st ->
     table_inv (fun _ val => val_fp val <> 0) (fire st ev)) /\
  (forall trace id valp,
     entryinfo (run trace bpf_init) !! id = Some valp -> val_fp valp <> 0).
Proof.
  assert (Hstep : forall st ev,
             table_inv (fun _ val => val_fp val <> 0) st ->
             table_inv (fun _ val => val_fp val <> 0) (fire st ev)).
  { apply fire_table_inv. intros ctx p val Hval.
    apply (entry_val_Some _ _ _ Hval). }
  repeat apply conj.
  - intros st ctx iocb inode Hnull. repeat apply conj.
    + unfold trace_read_entry. rewrite Hnull. cbn.
      repeat case_match; reflexivity.
    + unfold trace_write_entry. rewrite Hnull. cbn. case_match; reflexivity.
    + unfold trace_open_entry. cbn. case_match; reflexivity.
    + unfold trace_fsync_entry. cbn. case_match; reflexivity.
  - intros st ctx p Hp. rewrite fire_entry by assumption.
    destruct (entry_val ctx p) as [val|] eqn:Hval; [|left; reflexivity].
    destruct (entryinfo_update_cases (ctx_id ctx) val st) as [-> | ->];
      [left; reflexivity | right].
    exists val. split; [reflexivity | apply (entry_val_Some _ _ _ Hval)].
  - exact Hstep.
  - intros trace id valp.
    apply (run_invariant (table_inv (fun _ val => val_fp val <> 0)) Hstep).
    apply map_Forall_empty.
Qed.

(** C10: the size of an appended event is the return register reduced modulo
    2^32, an unsigned 32-bit value; the handler does not look at the sign of
    the return value, so an operation that failed with [-errno] in the
    register, once past the duration filter and the name check, appends an
    event whose size is [2^32 - errno]. *)
Theorem C10_size_is_truncated_return_value ctx type st :
  (forall e,
     events (trace_return ctx type st) = events st ++ [e] ->
     data_size e = PT_REGS_RC ctx mod 2 ^ 32 /\ 0 <= data_size e < 2 ^ 32) /\
  (forall valp errno,
     entryinfo st !! ctx_id ctx = Some valp ->
     FILTER_US s (u64 (u64 (bpf_ktime_get_ns ctx) - val_ts valp) / 1000)
       = false ->
     qs_len ctx valp <> 0 ->
     0 < errno <= 4095 ->
     PT_REGS_RC ctx = u64 (- errno) ->
     exists e,
       events (trace_return ctx type st) = events st ++ [e] /\
       data_size e = 2 ^ 32 - errno /\
       2 ^ 31 <= data_size e).
Proof.
  split.
  - intros e He.
    apply trace_return_emits in He as (_ & _ & _ & _ & _ & _ & Hs & _).
    rewrite Hs. split; [reflexivity | apply u32_range].
  - intros valp errno Hfound HF Hname Herr Hrc.
    rewrite (trace_return_Some _ _ _ _ Hfound). cbv zeta. rewrite HF.
    destruct (Z.eqb_spec (qs_len ctx valp) 0); [contradiction|].
    eexists. split; [reflexivity|]. cbn [data_size]. rewrite Hrc.
    assert (u32 (u64 (- errno)) = 2 ^ 32 - errno) as ->; [|lia].
    unfold u32, u64.
    rewrite <- (Z.mod_unique (- errno) (2 ^ 64) (-1) (2 ^ 64 - errno)) by lia.
    symmetry. apply (Z.mod_unique _ _ (2 ^ 32 - 1)); lia.
Qed.

(** * Further properties of the handlers *)

Lemma trace_return_submitted ctx type st :
  trace_return ctx type st =
    mk_bpf (delete (ctx_id ctx) (entryinfo st))
           (events st ++ submitted ctx type (entryinfo st !! ctx_id ctx)).
Proof.
  destruct (entryinfo st !! ctx_id ctx) as [valp|] eqn:Hl.
  - rewrite (trace_return_Some _ _ _ _ Hl). cbv zeta. unfold submitted, populate.
    repeat case_match; cbn; rewrite ?app_nil_r; reflexivity.
  - rewrite (trace_return_None _ _ _ Hl), (delete_id _ _ Hl). cbn.
    rewrite app_nil_r. destruct st; reflexivity.
Qed.

Lemma return_type_entry p : is_entry p = true -> return_type p = None.
Proof. destruct p; cbn; congruence. Qed.

Lemma fire_return_type st ctx p type :
  return_type p = Some type -> fire st (ctx, p) = trace_return ctx type st.
Proof. destruct p; cbn; try discriminate; intros [= <-]; reflexivity. Qed.

Lemma return_type_is_letter p type :
  return_type p = Some type ->
  type ∈ ["R"; "W"; "O"; "S"]%char /\ is_entry p = false.
Proof.
  destruct p; cbn; try discriminate; intros [= <-]; split;
    try reflexivity; set_solver.
Qed.

(** The events a probe appends, for every kind of probe. *)
Lemma fire_events st ctx p :
  events (fire st (ctx, p)) =
    events st ++
    match return_type p with
    | Some type => submitted ctx type (entryinfo st !! ctx_id ctx)
    | None => []
    end.
Proof.
  destruct (return_type p) as [type|] eqn:Hp.
  - rewrite (fire_return_type _ _ _ _ Hp), trace_return_submitted. reflexivity.
  - rewrite app_nil_r. apply fire_entry_events. destruct p; cbn in *; congruence.
Qed.

Lemma submitted_cases ctx type found :
  submitted ctx type found = [] \/
  exists valp, found = Some valp /\ submitted ctx type found = [populate ctx type valp].
Proof. unfold submitted. repeat case_match; eauto. Qed.

Lemma entry_val_fields ctx p val :
  entry_val ctx p = Some val ->
  val = mk_val (u64 (bpf_ktime_get_ns ctx)) (entry_offset p) (entry_file p).
Proof.
  unfold entry_val. destruct (FILTER_PID s (ctx_pid ctx)); [discriminate|].
  destruct p; repeat case_match; intros; simplify_eq; reflexivity.
Qed.

Lemma entry_offset_range p : 0 <= entry_offset p < 2 ^ 64.
Proof. destruct p; cbn; try apply u64_range; lia. Qed.

(** X1: in every session run from the initial state every event fits the
    wire layout: its type is one of R, W, O, S, its timestamp, offset and
    latency are unsigned 64-bit values, its size and pid unsigned 32-bit
    values, and its task name has at most [TASK_COMM_LEN] bytes. *)
Theorem X1_events_fit_wire_layout trace :
  Forall (fun e =>
            data_type e ∈ ["R"; "W"; "O"; "S"]%char /\
            0 <= data_ts_us e < 2 ^ 64 /\
            0 <= data_size e < 2 ^ 32 /\
            0 <= data_offset e < 2 ^ 64 /\
            0 <= data_delta_us e < 2 ^ 64 /\
            0 <= data_pid e < 2 ^ 32 /\
            (length (data_task e) <= TASK_COMM_LEN)%nat)
         (events (run trace bpf_init)).
Proof.
  set (R := fun e : data_t => _).
  pose (I := fun st =>
    table_inv (fun _ val => 0 <= val_offset val < 2 ^ 64) st /\ events_inv R st).
  assert (HI : I (run trace bpf_init)); [|apply HI].
  apply run_invariant.
  - intros st [ctx p] [Htab Hev]. split.
    + revert Htab. apply fire_table_inv. intros c q val Hval.
      rewrite (entry_val_fields _ _ _ Hval). cbn. apply entry_offset_range.
    + unfold events_inv. rewrite fire_events. apply Forall_app. split; [exact Hev|].
      destruct (return_type p) as [type|] eqn:Hp; [|constructor].
      destruct (submitted_cases ctx type (entryinfo st !! ctx_id ctx))
        as [-> | (valp & Hl & ->)]; [constructor|].
      constructor; [|constructor]. unfold R, populate. cbn.
      pose proof (u64_range (bpf_ktime_get_ns ctx)) as Hts.
      pose proof (u64_range (u64 (bpf_ktime_get_ns ctx) - val_ts valp)) as Hd.
      split; [apply (return_type_is_letter _ _ Hp)|].
      split; [split; [apply Z.div_pos; lia | apply Z.div_lt_upper_bound; lia]|].
      split; [apply u32_range|].
      split; [exact (Htab _ _ Hl)|].
      split; [split; [apply Z.div_pos; lia | apply Z.div_lt_upper_bound; lia]|].
      split; [apply u32_range|].
      rewrite length_take. lia.
  - split; [apply map_Forall_empty | constructor].
Qed.

(** X2: events are only ever appended, never changed or removed, and a trace
    appends at most one event per return probe in it; entry probes append
    none. *)
Theorem X2_events_only_grow trace st :
  events st `prefix_of` events (run trace st) /\
  (length (events (run trace st)) <= length (events st) + count_returns trace)%nat.
Proof.
  revert st. induction trace as [|[ctx p] trace IH]; intros st.
  - cbn. split; [reflexivity | lia].
  - cbn [run fold_left]. fold (run trace (fire st (ctx, p))).
    destruct (IH (fire st (ctx, p))) as [Hpre Hlen].
    rewrite fire_events in Hpre, Hlen. split.
    + eapply prefix_app_l. exact Hpre.
    + rewrite length_app in Hlen. unfold count_returns in *. cbn [List.filter snd].
      destruct (return_type p) as [type|] eqn:Hp.
      * destruct (return_type_is_letter _ _ Hp) as [_ ->]. cbn [negb length].
        destruct (submitted_cases ctx type (entryinfo st !! ctx_id ctx))
          as [E | (valp & _ & E)]; rewrite E in Hlen; cbn in Hlen; lia.
      * cbn in Hlen. destruct (is_entry p); cbn; lia.
Qed.

(** X3: a return probe that fires again for the same execution context, with
    no entry in between, finds nothing and changes nothing: one operation is
    reported at most once. *)
Theorem X3_second_return_is_silent c1 type1 c2 type2 st :
  ctx_id c2 = ctx_id c1 ->
  trace_return c2 type2 (trace_return c1 type1 st) = trace_return c1 type1 st.
Proof.
  intros Hid. apply trace_return_None.
  rewrite trace_return_entryinfo, Hid. case_decide; congruence.
Qed.

(** X4: what a return probe reports does not depend on the probes other
    execution contexts fired before it: it appends the same events after any
    such interleaving as it would without it. *)
Theorem X4_other_contexts_do_not_interfere others ctx type st :
  Forall (fun ev => ctx_id ev.1 <> ctx_id ctx) others ->
  exists out,
    events (trace_return ctx type st) = events st ++ out /\
    events (trace_return ctx type (run others st))
      = events (run others st) ++ out.
Proof.
  intros Hothers. exists (submitted ctx type (entryinfo st !! ctx_id ctx)).
  rewrite !trace_return_submitted. cbn.
  rewrite (run_other _ _ _ Hothers). split; reflexivity.
Qed.

(** X5: the event of a paired operation.  When an entry probe passes its
    guards, other execution contexts fire in between and a return probe of
    the same context appends an event, every field of that event is
    determined: the type is the letter of the return probe (whatever the kind
    of the entry probe), offset and file are those captured at entry (offset
    0 for open and fsync), pid, task, size and end time are read at return,
    and the name is resolved in the kernel memory of the return. *)
Theorem X5_event_of_paired_operation st c1 p others c2 p2 type e :
  is_entry p = true ->
  is_Some (entry_val c1 p) ->
  Forall (fun ev => ctx_id ev.1 <> ctx_id c1) others ->
  ctx_id c2 = ctx_id c1 ->
  return_type p2 = Some type ->
  let st2 := run others (fire st (c1, p)) in
  events (fire st2 (c2, p2)) = events st2 ++ [e] ->
  e = mk_data (u64 (bpf_ktime_get_ns c2) / 1000) type (u32 (PT_REGS_RC c2))
              (entry_offset p)
              (u64 (u64 (bpf_ktime_get_ns c2) - u64 (bpf_ktime_get_ns c1)) / 1000)
              (ctx_pid c1)
              (take TASK_COMM_LEN (bpf_get_current_comm c2))
              (probe_read (kmem c2) DNAME_INLINE_LEN
                 (d_name_name (kmem c2)
                    (f_path_dentry (kmem c2) (entry_file p)))).
Proof.
  intros Hp [val Hval] Hothers Hid Hty st2 He.
  rewrite fire_events, Hty in He. apply app_inv_head in He.
  destruct (submitted_cases c2 type (entryinfo st2 !! ctx_id c2))
    as [E | (valp & Hl & E)]; rewrite E in He; [discriminate|].
  injection He as <-.
  subst st2. rewrite Hid, run_other in Hl by assumption.
  rewrite fire_entry, Hval in Hl by assumption.
  apply entryinfo_update_lookup in Hl as ->.
  rewrite (entry_val_fields _ _ _ Hval). unfold populate, ctx_pid. cbn.
  rewrite Hid. reflexivity.
Qed.

End Tracer.

(** ** Two sessions that differ in the threshold only *)

Section Threshold.

Variable max_entries : nat.
Variable TASK_COMM_LEN : nat.
Variable DNAME_INLINE_LEN : nat.
Variable s : session.

Lemma entryinfo_update_table id val st st0 :
  entryinfo st = entryinfo st0 ->
  entryinfo (entryinfo_update max_entries id val st)
  = entryinfo (entryinfo_update max_entries id val st0).
Proof.
  intros E. unfold entryinfo_update. rewrite E.
  repeat case_match; cbn; congruence.
Qed.

Lemma submitted_threshold ctx type found :
  submitted TASK_COMM_LEN DNAME_INLINE_LEN s ctx type found =
    List.filter (fun e => negb (FILTER_US s (data_delta_us e)))
      (submitted TASK_COMM_LEN DNAME_INLINE_LEN
         (mk_session 0 (pid s) (EXT4_FILE_OPERATIONS s)) ctx type found).
Proof.
  unfold submitted. destruct found as [valp|]; [|reflexivity].
  change (FILTER_US (mk_session 0 (pid s) (EXT4_FILE_OPERATIONS s)) _)
    with false. cbv iota.
  destruct (qs_len ctx valp =? 0); cbn.
  - destruct (FILTER_US s _); reflexivity.
  - destruct (FILTER_US s _); reflexivity.
Qed.

(** X6: the threshold only selects.  A session with threshold [min_ms] keeps
    the same table as the session with threshold 0 on the same probes, and
    its events are exactly those events of the threshold-0 session that pass
    [FILTER_US], in the same order; for a positive threshold these are the
    events with a latency above [min_ms * 1000] microseconds. *)
Theorem X6_threshold_selects_from_unfiltered trace :
  let s0 := mk_session 0 (pid s) (EXT4_FILE_OPERATIONS s) in
  let st := run max_entries TASK_COMM_LEN DNAME_INLINE_LEN s trace bpf_init in
  let st0 := run max_entries TASK_COMM_LEN DNAME_INLINE_LEN s0 trace bpf_init in
  entryinfo st = entryinfo st0 /\
  events st =
    List.filter (fun e => negb (FILTER_US s (data_delta_us e))) (events st0) /\
  (0 < min_ms s ->
   events st =
     List.filter (fun e => min_ms s * 1000 <? data_delta_us e) (events st0)).
Proof.
  cbv zeta.
  set (s0 := mk_session 0 (pid s) (EXT4_FILE_OPERATIONS s)).
  set (f := fun e => negb (FILTER_US s (data_delta_us e))).
  assert (Hrun : forall st st0,
    entryinfo st = entryinfo st0 ->
    events st = List.filter f (events st0) ->
    entryinfo (run max_entries TASK_COMM_LEN DNAME_INLINE_LEN s trace st)
    = entryinfo (run max_entries TASK_COMM_LEN DNAME_INLINE_LEN s0 trace st0) /\
    events (run max_entries TASK_COMM_LEN DNAME_INLINE_LEN s trace st)
    = List.filter f
        (events (run max_entries TASK_COMM_LEN DNAME_INLINE_LEN s0 trace st0))).
  { induction trace as [|[ctx p] tr IH]; intros st st0 Htab Hev.
    - split; assumption.
    - cbn [run fold_left]. apply IH.
      + destruct (is_entry p) eqn:Hp.
        * rewrite !fire_entry by assumption.
          change (entry_val s0 ctx p) with (entry_val s ctx p).
          destruct (entry_val s ctx p); [|assumption].
          apply entryinfo_update_table, Htab.
        * destruct (fire_return max_entries TASK_COMM_LEN DNAME_INLINE_LEN s
                      st ctx p Hp) as [type E].
          destruct (fire_return max_entries TASK_COMM_LEN DNAME_INLINE_LEN s0
                      st0 ctx p Hp) as [type0 E0].
          rewrite E, E0, !trace_return_submitted. cbn. congruence.
      + rewrite !fire_events, Htab, Hev, List.filter_app. f_equal.
        destruct (return_type p); [apply submitted_threshold | reflexivity]. }
  destruct (Hrun bpf_init bpf_init eq_refl eq_refl) as [Htab Hev].
  split; [exact Htab|]. split; [exact Hev|].
  intros HT. rewrite Hev. apply List.filter_ext. intros e. unfold f, FILTER_US.
  destruct (Z.eqb_spec (min_ms s) 0); [lia|].
  destruct (Z.ltb_spec (min_ms s * 1000) 0) as [|_]; [lia|].
  destruct (Z.leb_spec (data_delta_us e) (min_ms s * 1000));
    destruct (Z.ltb_spec (min_ms s * 1000) (data_delta_us e));
    cbn; (reflexivity || lia).
Qed.

(** X7: a negative threshold silences the tool.  The constant of
    [delta_us <= N] is then negative and is converted to the unsigned type of
    [delta_us], where it exceeds every latency the handler can compute: for
    [min_ms] from -10^15 to -1 no session reports any event. *)
Theorem X7_negative_threshold_reports_nothing trace :
  - 10 ^ 15 <= min_ms s < 0 ->
  events (run max_entries TASK_COMM_LEN DNAME_INLINE_LEN s trace bpf_init) = [].
Proof.
  intros Hneg.
  apply (run_invariant max_entries TASK_COMM_LEN DNAME_INLINE_LEN s
           (fun st => events st = [])); [|reflexivity].
  intros st [ctx p] Hst. rewrite fire_events, Hst. cbn [app].
  destruct (return_type p) as [type|]; [|reflexivity].
  unfold submitted. destruct (entryinfo st !! ctx_id ctx) as [valp|]; [|reflexivity].
  assert (FILTER_US s (u64 (u64 (bpf_ktime_get_ns ctx) - val_ts valp) / 1000)
          = true) as ->; [|reflexivity].
  unfold FILTER_US.
  destruct (Z.eqb_spec (min_ms s) 0); [lia|].
  destruct (Z.ltb_spec (min_ms s * 1000) 0); [|lia].
  apply Z.leb_le.
  pose proof (u64_range (u64 (bpf_ktime_get_ns ctx) - val_ts valp)) as Hd.
  assert (u64 (min_ms s * 1000) = min_ms s * 1000 + 2 ^ 64) as ->.
  { unfold u64. symmetry. apply (Z.mod_unique _ _ (-1)); lia. }
  assert (u64 (u64 (bpf_ktime_get_ns ctx) - val_ts valp) / 1000
          < 18446744073709552)
    by (apply Z.div_lt_upper_bound; lia).
  lia.
Qed.

End Threshold.

(** * The driver: looking up [ext4_file_operations] *)

Lemma append_cons c (a b : string) : String c a +:+ b = String c (a +:+ b).
Proof. reflexivity. Qed.

Lemma append_nil_l (b : string) : EmptyString +:+ b = b.
Proof. reflexivity. Qed.

Lemma count_char_app c a b :
  count_char c (a +:+ b) = (count_char c a + count_char c b)%nat.
Proof.
  induction a as [|x a IH]; [reflexivity|].
  rewrite append_cons. cbn. rewrite IH. lia.
Qed.

Lemma append_assoc (a b c : string) : (a +:+ b) +:+ c = a +:+ (b +:+ c).
Proof.
  induction a as [|x a IH]; [reflexivity|].
  rewrite !append_cons, IH. reflexivity.
Qed.

Lemma append_nil_r (a : string) : a +:+ EmptyString = a.
Proof.
  induction a as [|x a IH]; [reflexivity|]. rewrite append_cons, IH. reflexivity.
Qed.

Lemma str_split_nonempty sep m s : str_split sep m s <> [].
Proof.
  destruct s as [|c s]; cbn; [discriminate|].
  destruct (_ && _); [discriminate|]. destruct (str_split sep m s); discriminate.
Qed.

(** With no split left the string comes back whole. *)
Lemma str_split_zero sep s : str_split sep (Some 0%nat) s = [s].
Proof.
  induction s as [|c s IH]; cbn; [reflexivity|].
  rewrite bool_decide_eq_true_2 by reflexivity.
  rewrite andb_false_r, IH. reflexivity.
Qed.

(** A string without the separator is one part. *)
Lemma str_split_none sep m s :
  count_char sep s = 0%nat -> str_split sep m s = [s].
Proof.
  induction s as [|c s IH]; cbn; [reflexivity|].
  destruct (Ascii.eqb c sep); [discriminate|]. cbn. intros H.
  rewrite IH by assumption. reflexivity.
Qed.

(** The first separator ends the first part, while splits are left. *)
Lemma str_split_first sep m a b :
  count_char sep a = 0%nat ->
  m <> Some 0%nat ->
  str_split sep m (a +:+ String sep b) = a :: str_split sep (Nat.pred <$> m) b.
Proof.
  intros Ha Hm. induction a as [|c a IH].
  - rewrite append_nil_l. cbn.
    rewrite Ascii.eqb_refl, bool_decide_eq_false_2 by assumption. reflexivity.
  - rewrite append_cons. cbn in *.
    destruct (Ascii.eqb c sep); [discriminate|]. cbn.
    rewrite IH by assumption. reflexivity.
Qed.

(** Conversely, a split into several parts shows where the first separator
    is. *)
Lemma str_split_cons sep m s part parts :
  str_split sep m s = part :: parts ->
  parts <> [] ->
  count_char sep part = 0%nat /\
  m <> Some 0%nat /\
  exists rest,
    s = part +:+ String sep rest /\
    str_split sep (Nat.pred <$> m) rest = parts.
Proof.
  revert part parts. induction s as [|c s IH]; intros part parts; cbn.
  - intros [= <- <-] H. contradiction.
  - destruct (Ascii.eqb_spec c sep) as [->|Hc]; cbn.
    + case_bool_decide as Hm; cbn.
      * subst m. rewrite str_split_zero. intros [= <- <-] H. contradiction.
      * intros [= <- <-] _. repeat split; [assumption|].
        exists s. split; reflexivity.
    + destruct (str_split sep m s) as [|p ps] eqn:Hs; [intros [= <- <-] H; contradiction|].
      intros [= <- <-] Hne.
      destruct (IH p ps eq_refl Hne) as (Hp & Hm & rest & -> & Hr).
      cbn. destruct (Ascii.eqb_spec c sep); [contradiction|].
      repeat split; try assumption. exists rest. split; [reflexivity | assumption].
Qed.

Lemma str_split_length sep s :
  length (str_split sep None s) = S (count_char sep s).
Proof.
  induction s as [|c s IH]; [reflexivity|].
  cbn [str_split count_char]. change (Nat.pred <$> None) with (@None nat).
  destruct (Ascii.eqb c sep); cbn [andb negb].
  - rewrite bool_decide_eq_false_2 by discriminate. cbn. rewrite IH. reflexivity.
  - destruct (str_split sep None s) eqn:Hs; cbn in *; [discriminate | lia].
Qed.

(** [rstrip] only removes characters at the end. *)
Lemma rstrip_prefix isspace s : exists w, s = rstrip isspace s +:+ w.
Proof.
  induction s as [|c s [w IH]]; cbn; [exists EmptyString; reflexivity|].
  destruct (rstrip isspace s) as [|d r] eqn:Hr.
  - destruct (isspace c); [exists (String c s); reflexivity|].
    exists s. reflexivity.
  - exists w. rewrite append_cons. congruence.
Qed.

Lemma rstrip_count isspace c s :
  (count_char c (rstrip isspace s) <= count_char c s)%nat.
Proof.
  destruct (rstrip_prefix isspace s) as [w Hw].
  rewrite Hw at 2. rewrite count_char_app. lia.
Qed.

(** A character that is not white space shields what is before it. *)
Lemma rstrip_app isspace a c b :
  isspace c = false ->
  rstrip isspace (a +:+ String c b) = a +:+ String c (rstrip isspace b).
Proof.
  intros Hc. induction a as [|d a IH].
  - rewrite !append_nil_l. cbn.
    destruct (rstrip isspace b); [rewrite Hc|]; reflexivity.
  - rewrite !append_cons. cbn. rewrite IH. destruct a; reflexivity.
Qed.

Lemma rstrip_spaces isspace s :
  all_chars isspace s = true -> rstrip isspace s = EmptyString.
Proof.
  induction s as [|c s IH]; cbn; [reflexivity|].
  intros H. apply andb_true_iff in H as [Hc Hs].
  rewrite IH, Hc by assumption. reflexivity.
Qed.

Lemma kallsyms_fields_Some isspace line addr size name :
  kallsyms_fields isspace line = Some (addr, size, name) ->
  rstrip isspace line = addr +:+ " " +:+ size +:+ " " +:+ name /\
  count_char " " addr = 0%nat /\
  count_char " " size = 0%nat.
Proof.
  unfold kallsyms_fields, unpack3.
  destruct (str_split " " (Some 2%nat) (rstrip isspace line))
    as [|a [|b [|c [|]]]] eqn:Hs; try discriminate.
  intros [= <- <- <-].
  apply str_split_cons in Hs as (Ha & _ & rest & -> & Hs); [|discriminate].
  cbn in Hs. apply str_split_cons in Hs as (Hb & _ & rest' & -> & Hs);
    [|discriminate].
  cbn in Hs. rewrite str_split_zero in Hs. injection Hs as ->.
  repeat split; assumption.
Qed.

Lemma kallsyms_fields_few_spaces isspace line :
  (count_char " " line < 2)%nat -> kallsyms_fields isspace line = None.
Proof.
  intros Hfew.
  destruct (kallsyms_fields isspace line) as [[[addr size] name]|] eqn:Hf;
    [|reflexivity].
  apply kallsyms_fields_Some in Hf as (Hr & _).
  pose proof (rstrip_count isspace " " line) as Hle.
  rewrite Hr, !count_char_app in Hle. cbn in Hle. lia.
Qed.

Lemma resolve_ops_passed_over isspace line rest :
  passed_over isspace line ->
  resolve_ops isspace (line :: rest) = resolve_ops isspace rest.
Proof.
  intros (addr & size & name & Hf & Hne). unfold resolve_ops. cbn.
  rewrite Hf. apply String.eqb_neq in Hne. rewrite Hne. reflexivity.
Qed.

Lemma resolve_ops_match isspace line rest addr size name :
  kallsyms_fields isspace line = Some (addr, size, name) ->
  symbol_of name = "ext4_file_operations"%string ->
  resolve_ops isspace (line :: rest) = Resolved ("0x" +:+ addr).
Proof.
  intros Hf Hsym. unfold resolve_ops. cbn. rewrite Hf, Hsym. reflexivity.
Qed.

Lemma resolve_ops_malformed isspace line rest :
  kallsyms_fields isspace line = None ->
  resolve_ops isspace (line :: rest) = ValueError.
Proof. intros Hf. unfold resolve_ops. cbn. rewrite Hf. reflexivity. Qed.

(** Each line either parses and is passed over, or names the symbol, or
    raises. *)
Lemma line_cases isspace line :
  passed_over isspace line \/
  (exists addr size name,
     kallsyms_fields isspace line = Some (addr, size, name) /\
     symbol_of name = "ext4_file_operations"%string) \/
  kallsyms_fields isspace line = None.
Proof.
  destruct (kallsyms_fields isspace line) as [[[addr size] name]|] eqn:Hf;
    [|auto].
  destruct (String.eqb_spec (symbol_of name) "ext4_file_operations").
  - right. left. eauto.
  - left. exists addr, size, name. auto.
Qed.



Lemma rstrip_head isspace c m :
  rstrip isspace (String c m) = EmptyString \/
  exists r, rstrip isspace (String c m) = String c r.
Proof.
  cbn. destruct (rstrip isspace m); [destruct (isspace c)|]; eauto.
Qed.

(** X8: the lookup succeeds exactly when some line names
    [ext4_file_operations] and every line before it parses and names another
    symbol; the text put in place of [EXT4_FILE_OPERATIONS] is ["0x"]
    followed by the first field of the first such line, and the lines after
    it are not read. *)
Theorem X8_first_matching_line_decides isspace syms ops :
  resolve_ops isspace syms = Resolved ops <->
  exists pre line post addr size name,
    syms = pre ++ line :: post /\
    Forall (passed_over isspace) pre /\
    kallsyms_fields isspace line = Some (addr, size, name) /\
    symbol_of name = "ext4_file_operations"%string /\
    ops = "0x" +:+ addr.
Proof.
  split.
  - induction syms as [|line rest IH]; [discriminate|].
    destruct (line_cases isspace line)
      as [Hover | [(addr & size & name & Hf & Hsym) | Hnone]].
    + rewrite resolve_ops_passed_over by assumption. intros H.
      destruct (IH H) as (pre & l & post & addr & size & name & -> & Hpre & Hrest).
      exists (line :: pre), l, post, addr, size, name.
      split; [reflexivity|]. split; [constructor; assumption | exact Hrest].
    + rewrite (resolve_ops_match _ _ _ _ _ _ Hf Hsym). intros [= <-].
      exists [], line, rest, addr, size, name. repeat split; auto.
    + rewrite resolve_ops_malformed by assumption. discriminate.
  - intros (pre & line & post & addr & size & name & -> & Hpre & Hf & Hsym & ->).
    induction Hpre as [|l pre Hl _ IH]; cbn [app].
    + apply (resolve_ops_match _ _ _ _ _ _ Hf Hsym).
    + rewrite resolve_ops_passed_over by assumption. exact IH.
Qed.

(** X9: the two ways the lookup fails.  It reports the missing symbol
    exactly when every line of the file parses and none names the symbol;
    it raises [ValueError] exactly when a line that does not split into three
    fields comes before any line naming the symbol. *)
Theorem X9_lookup_failures isspace syms :
  (resolve_ops isspace syms = NoSymbol <-> Forall (passed_over isspace) syms) /\
  (resolve_ops isspace syms = ValueError <->
   exists pre line post,
     syms = pre ++ line :: post /\
     Forall (passed_over isspace) pre /\
     kallsyms_fields isspace line = None).
Proof.
  induction syms as [|line rest [IHn IHv]].
  - split; split.
    + constructor.
    + reflexivity.
    + discriminate.
    + intros (pre & l & post & E & _). destruct pre; discriminate.
  - destruct (line_cases isspace line)
      as [Hover | [(addr & size & name & Hf & Hsym) | Hnone]].
    + rewrite resolve_ops_passed_over by assumption. split; split.
      * intros H. constructor; [assumption | apply IHn, H].
      * intros H. apply IHn. inversion H; assumption.
      * intros H. destruct (proj1 IHv H) as (pre & l & post & -> & Hpre & Hl).
        exists (line :: pre), l, post. repeat split; auto.
      * intros (pre & l & post & E & Hpre & Hl). apply IHv.
        destruct pre as [|l0 pre]; cbn in E; injection E as <- ->.
        -- destruct Hover as (a & sz & n & Hf & _). congruence.
        -- exists pre, l, post. inversion Hpre. repeat split; auto.
    + rewrite (resolve_ops_match _ _ _ _ _ _ Hf Hsym). split; split.
      * discriminate.
      * intros H. inversion H as [|? ? (a & sz & n & Hf' & Hne)]; subst.
        congruence.
      * discriminate.
      * intros (pre & l & post & E & Hpre & Hl).
        destruct pre as [|l0 pre]; cbn in E; injection E as <- ->.
        -- congruence.
        -- inversion Hpre as [|? ? (a & sz & n & Hf' & Hne)]; subst. congruence.
    + rewrite resolve_ops_malformed by assumption. split; split.
      * discriminate.
      * intros H. inversion H as [|? ? (a & sz & n & Hf' & Hne)]; subst.
        congruence.
      * intros _. exists [], line, rest. repeat split; auto.
      * reflexivity.
Qed.

(** X10: a line with fewer than two spaces (an empty line, a line with a
    single field) is not skipped: when it comes before the symbol the lookup
    raises [ValueError], whatever follows. *)
Theorem X10_short_line_raises isspace pre line post :
  Forall (passed_over isspace) pre ->
  (count_char " " line < 2)%nat ->
  resolve_ops isspace (pre ++ line :: post) = ValueError.
Proof.
  intros Hpre Hfew. induction Hpre as [|l pre Hl _ IH]; cbn [app].
  - apply resolve_ops_malformed, kallsyms_fields_few_spaces, Hfew.
  - rewrite resolve_ops_passed_over by assumption. exact IH.
Qed.

(** X11: a line made of an address and a type without spaces, the symbol
    [ext4_file_operations], and then either only white space or a tab and
    anything (the module column) is found, provided the lines before it were
    passed over and the letter s is not white space for the interpreter. *)
Theorem X11_symbol_line_is_found (isspace : ascii -> bool) pre addr size tail
    post :
  isspace "s"%char = false ->
  Forall (passed_over isspace) pre ->
  count_char " " addr = 0%nat ->
  count_char " " size = 0%nat ->
  all_chars isspace tail = true \/ (exists m, tail = String "009" m) ->
  resolve_ops isspace
    (pre ++ (addr +:+ " " +:+ size +:+ " " +:+ "ext4_file_operations" +:+ tail)
         :: post)
  = Resolved ("0x" +:+ addr).
Proof.
  intros Hs Hpre Haddr Hsize Htail.
  set (line := addr +:+ _).
  assert (Hr : exists r,
             (r = EmptyString \/ exists r', r = String "009" r') /\
             rstrip isspace line
             = addr +:+ String " " (size +:+ String " " ("ext4_file_operations" +:+ r))).
  { exists (rstrip isspace tail). split.
    - destruct Htail as [Hall | [m ->]].
      + left. apply rstrip_spaces, Hall.
      + destruct (rstrip_head isspace "009" m) as [-> | [r' ->]]; eauto.
    - subst line.
      change ("ext4_file_operations" +:+ tail)
        with ("ext4_file_operation" +:+ String "s" tail).
      rewrite <- !append_assoc. rewrite rstrip_app by assumption.
      rewrite !append_assoc. reflexivity. }
  destruct Hr as (r & Hr & Hline).
  assert (Hf : kallsyms_fields isspace line
               = Some (addr, size, "ext4_file_operations" +:+ r));
    [|assert (Hsym : symbol_of ("ext4_file_operations" +:+ r)
                     = "ext4_file_operations"%string)].
  - unfold kallsyms_fields. rewrite Hline.
    rewrite str_split_first by (assumption || discriminate). cbn [fmap option_fmap option_map Nat.pred].
    rewrite str_split_first by (assumption || discriminate). cbn [fmap option_fmap option_map Nat.pred].
    rewrite str_split_zero. reflexivity.
  - unfold symbol_of. destruct Hr as [-> | [r' ->]].
    + reflexivity.
    + rewrite str_split_first by (reflexivity || discriminate). reflexivity.
  - induction Hpre as [|l pre Hl _ IH]; cbn [app].
    + apply (resolve_ops_match _ _ _ _ _ _ Hf Hsym).
    + rewrite resolve_ops_passed_over by assumption. exact IH.
Qed.

(** X12: the text of a successful lookup is one token: ["0x"] followed by
    an address without spaces, namely the text before the first space of a
    line of the file. *)
Theorem X12_resolved_text_is_one_token isspace syms ops :
  resolve_ops isspace syms = Resolved ops ->
  exists addr,
    ops = "0x" +:+ addr /\
    count_char " " addr = 0%nat /\
    exists line tail, line ∈ syms /\ line = addr +:+ " " +:+ tail.
Proof.
  intros H.
  assert (exists line addr size name,
            line ∈ syms /\
            kallsyms_fields isspace line = Some (addr, size, name) /\
            ops = "0x" +:+ addr) as (line & addr & size & name & Hin & Hf & ->).
  { induction syms as [|l rest IH]; [discriminate|].
    destruct (line_cases isspace l)
      as [Hover | [(addr & size & name & Hf & Hsym) | Hnone]].
    - rewrite resolve_ops_passed_over in H by assumption.
      destruct (IH H) as (line & addr & size & name & Hin & Hrest).
      exists line, addr, size, name. split; [constructor; exact Hin | exact Hrest].
    - rewrite (resolve_ops_match _ _ _ _ _ _ Hf Hsym) in H. injection H as <-.
      exists l, addr, size, name. split; [constructor | auto].
    - rewrite resolve_ops_malformed in H by assumption. discriminate. }
  apply kallsyms_fields_Some in Hf as (Hr & Ha & _).
  destruct (rstrip_prefix isspace line) as [w Hw].
  exists addr. split; [reflexivity|]. split; [assumption|].
  exists line, ((size +:+ " " +:+ name) +:+ w). split; [assumption|].
  rewrite Hw at 1. rewrite Hr. rewrite !append_assoc. reflexivity.
Qed.

(** * The driver: CSV output *)

Lemma string_of_uint_no_comma d :
  count_char "," (NilEmpty.string_of_uint d) = 0%nat.
Proof. induction d; cbn; assumption || reflexivity. Qed.

Lemma fmt_d_no_comma n : count_char "," (fmt_d n) = 0%nat.
Proof.
  unfold fmt_d, NilZero.string_of_int, NilZero.string_of_uint.
  destruct (Z.to_int n) as [d|d]; destruct d; cbn;
    try reflexivity; apply string_of_uint_no_comma.
Qed.

Lemma fmt_d_inj n m : fmt_d n = fmt_d m -> n = m.
Proof.
  unfold fmt_d. intros H.
  assert (Hnn : forall z, Z.to_int z <> Decimal.Pos Decimal.Nil /\
                          Z.to_int z <> Decimal.Neg Decimal.Nil).
  { intros [|p|p]; cbn; split; try discriminate;
      intros [= E]; exact (Unsigned.to_uint_nonnil p E). }
  pose proof (NilZero.isi (Z.to_int n) (proj1 (Hnn n)) (proj2 (Hnn n))) as Hn.
  pose proof (NilZero.isi (Z.to_int m) (proj1 (Hnn m)) (proj2 (Hnn m))) as Hm.
  rewrite H, Hm in Hn. injection Hn as Hn.
  rewrite <- (DecimalZ.of_to n), <- (DecimalZ.of_to m), Hn. reflexivity.
Qed.

(** X13: a CSV row has the eight columns of the header plus one more for
    every comma in the task name, the type and the file name: nothing is
    quoted or escaped. *)
Theorem X13_csv_columns e :
  length (str_split "," None (print_event_csv e)) =
    (length (str_split "," None csv_header)
     + count_char "," (ev_task e) + count_char "," (ev_type e)
     + count_char "," (ev_file e))%nat.
Proof.
  rewrite !str_split_length. unfold print_event_csv.
  rewrite !count_char_app, !fmt_d_no_comma. cbn. lia.
Qed.

(** X14: when the task name, the type and the file name contain no comma,
    splitting a CSV row at its commas gives back exactly the eight fields, in
    the order of the header. *)
Theorem X14_csv_fields e :
  count_char "," (ev_task e) = 0%nat ->
  count_char "," (ev_type e) = 0%nat ->
  count_char "," (ev_file e) = 0%nat ->
  str_split "," None (print_event_csv e) =
    [fmt_d (ev_ts_us e); ev_task e; fmt_d (ev_pid e); ev_type e;
     fmt_d (ev_size e); fmt_d (ev_offset e); fmt_d (ev_delta_us e); ev_file e].
Proof.
  intros Htask Htype Hfile. unfold print_event_csv.
  repeat (change ("," +:+ ?x) with (String "," x);
          rewrite str_split_first
            by (assumption || apply fmt_d_no_comma || discriminate);
          change (Nat.pred <$> None) with (@None nat)).
  rewrite str_split_none by assumption. reflexivity.
Qed.

(** X15: under the same condition a CSV row determines the event: two events
    that print the same row are equal. *)
Theorem X15_csv_row_determines_event e1 e2 :
  count_char "," (ev_task e1) = 0%nat ->
  count_char "," (ev_type e1) = 0%nat ->
  count_char "," (ev_file e1) = 0%nat ->
  count_char "," (ev_task e2) = 0%nat ->
  count_char "," (ev_type e2) = 0%nat ->
  count_char "," (ev_file e2) = 0%nat ->
  print_event_csv e1 = print_event_csv e2 ->
  e1 = e2.
Proof.
  intros Ht1 Hy1 Hf1 Ht2 Hy2 Hf2 Hrow.
  apply (f_equal (str_split "," None)) in Hrow.
  unfold print_event_csv in Hrow.
  repeat (change ("," +:+ ?x) with (String "," x) in Hrow;
          rewrite !str_split_first in Hrow
            by (assumption || apply fmt_d_no_comma || discriminate);
          change (Nat.pred <$> None) with (@None nat) in Hrow).
  rewrite !str_split_none in Hrow by assumption.
  injection Hrow as H1 H2 H3 H4 H5 H6 H7 H8.
  apply fmt_d_inj in H1, H3, H5, H6, H7.
  destruct e1, e2; cbn in *; congruence.
Qed.

(** * The properties on the sample machine *)

(** Threshold 10 ms: a write of 11 ms is reported with a latency above
    10000 us.  Threshold 0: a read of 3 ms is reported. *)
Lemma C1_duration_filter_witness :
  let entry := (sample_ctx 185 186 0 0, kprobe_write (mk_kiocb 1 4096)) in
  let ret := (sample_ctx 185 186 11000000 4096, kretprobe_write) in
  let st := fire BPF_HASH_entries 16 32 unfiltered bpf_init
              (sample_ctx 185 186 100000000 0, kprobe_read (mk_kiocb 1 0)) in
  (length (events (run BPF_HASH_entries 16 32 slower_than_10ms [entry; ret] bpf_init)) = 1%nat /\
   Forall (fun e => 10 * 1000 < data_delta_us e)
          (events (run BPF_HASH_entries 16 32 slower_than_10ms [entry; ret] bpf_init))) /\
  (exists e,
     events (trace_return 16 32 unfiltered (sample_ctx 185 186 103000000 4096)
                          "R" st) = events st ++ [e] /\
     data_delta_us e = 3000).
Proof.
  cbv zeta. split.
  - split; [vm_compute; reflexivity|].
    refine (proj2 (proj2 (proj1
      (C1_duration_filter BPF_HASH_entries 16 32 slower_than_10ms
         (sample_ctx 185 186 11000000 4096) "W"
         (fire BPF_HASH_entries 16 32 slower_than_10ms bpf_init
            (sample_ctx 185 186 0 0, kprobe_write (mk_kiocb 1 4096)))
         (mk_val 0 4096 1) _) _)) _).
    + vm_compute. reflexivity.
    + vm_compute. reflexivity.
  - refine (proj2 (proj2
      (C1_duration_filter BPF_HASH_entries 16 32 unfiltered
         (sample_ctx 185 186 103000000 4096) "R" _
         (mk_val 100000000 0 1) _) _) _).
    + vm_compute. reflexivity.
    + reflexivity.
    + vm_compute. discriminate.
Defined.

(** A write entered at 999 ns returns at 1000 ns: one event, latency 0, while
    the two timestamps are 1 ns apart (and 1 us apart once each is cut to
    microseconds).  And a read of a file of another file system, entered at
    1 ms while a record of the same thread is pending since 0 and returning at
    5 ms, is reported with 5000 us although entry and return are 4 ms apart. *)
Lemma C2_counterexample :
  let entryTimestamp := 999 in
  let returnTimestamp := 1000 in
  let entry :=
    (sample_ctx 185 186 entryTimestamp 0, kprobe_write (mk_kiocb 1 0)) in
  let ret := (sample_ctx 185 186 returnTimestamp 512, kretprobe_write) in
  let pending := (sample_ctx 185 186 0 0, kprobe_write (mk_kiocb 1 0)) in
  let entry' :=
    (sample_ctx 185 186 1000000 0, kprobe_read (mk_kiocb 3 8192)) in
  let ret' := (sample_ctx 185 186 5000000 100, kretprobe_read) in
  (exists e,
     events (run BPF_HASH_entries 16 32 unfiltered [entry; ret] bpf_init) = [e] /\
     data_delta_us e = 0 /\
     data_delta_us e <> returnTimestamp - entryTimestamp /\
     data_delta_us e * 1000 <> returnTimestamp - entryTimestamp /\
     data_delta_us e <> returnTimestamp / 1000 - entryTimestamp / 1000) /\
  (exists e,
     events (run BPF_HASH_entries 16 32 unfiltered [pending; entry'; ret']
               bpf_init) = [e] /\
     data_delta_us e = 5000 /\
     data_delta_us e <> (5000000 - 1000000) / 1000).
Proof.
  cbv zeta. split.
  - eexists. split; [vm_compute; reflexivity|].
    cbn. repeat split; discriminate.
  - eexists. split; [vm_compute; reflexivity|].
    cbn. split; [reflexivity | discriminate].
Qed.

(** A read of 3.0005 ms with a write of another thread in between. *)
Lemma C2_latency_whole_microseconds_witness :
  let st2 :=
    run BPF_HASH_entries 16 32 unfiltered
      [(sample_ctx 185 186 100000000 0, kprobe_read (mk_kiocb 1 4096));
       (sample_ctx 185 187 100000100 0, kprobe_write (mk_kiocb 2 0));
       (sample_ctx 185 187 100000900 512, kretprobe_write)] bpf_init in
  exists e,
    events (trace_return 16 32 unfiltered (sample_ctx 185 186 103000500 4096)
                         "R" st2) = events st2 ++ [e] /\
    data_delta_us e = 3000 /\
    0 <= data_delta_us e.
Proof.
  cbv zeta.
  assert (exists e,
    events (trace_return 16 32 unfiltered (sample_ctx 185 186 103000500 4096)
              "R"
              (run BPF_HASH_entries 16 32 unfiltered
                 [(sample_ctx 185 187 100000100 0, kprobe_write (mk_kiocb 2 0));
                  (sample_ctx 185 187 100000900 512, kretprobe_write)]
                 (fire BPF_HASH_entries 16 32 unfiltered bpf_init
                    (sample_ctx 185 186 100000000 0,
                     kprobe_read (mk_kiocb 1 4096))))) =
    events (run BPF_HASH_entries 16 32 unfiltered
                 [(sample_ctx 185 187 100000100 0, kprobe_write (mk_kiocb 2 0));
                  (sample_ctx 185 187 100000900 512, kretprobe_write)]
                 (fire BPF_HASH_entries 16 32 unfiltered bpf_init
                    (sample_ctx 185 186 100000000 0,
                     kprobe_read (mk_kiocb 1 4096)))) ++ [e]) as [e He].
  { eexists. vm_compute. reflexivity. }
  exists e. split; [exact He|].
  destruct (C2_latency_whole_microseconds BPF_HASH_entries 16 32 unfiltered bpf_init
              (sample_ctx 185 186 100000000 0) (kprobe_read (mk_kiocb 1 4096))
              (mk_val 100000000 4096 1)
              [(sample_ctx 185 187 100000100 0, kprobe_write (mk_kiocb 2 0));
               (sample_ctx 185 187 100000900 512, kretprobe_write)]
              (sample_ctx 185 186 103000500 4096) "R" e)
    as (Hd & Hpos & _).
  - reflexivity.
  - vm_compute. reflexivity.
  - repeat constructor; vm_compute; discriminate.
  - reflexivity.
  - exact He.
  - split; [rewrite Hd; vm_compute; reflexivity | exact Hpos].
Defined.

(** A write of 1 ms under a 10 ms threshold: nothing is reported and the
    record is gone. *)
Lemma C3_record_removed_witness :
  let ctx := sample_ctx 185 186 1000000 4096 in
  let st := fire BPF_HASH_entries 16 32 slower_than_10ms bpf_init
              (sample_ctx 185 186 0 0, kprobe_write (mk_kiocb 1 0)) in
  let st' := trace_return 16 32 slower_than_10ms ctx "W" st in
  entryinfo st !! ctx_id ctx = Some (mk_val 0 0 1) /\
  events st' = [] /\
  entryinfo st' = delete (ctx_id ctx) (entryinfo st) /\
  entryinfo st' !! ctx_id ctx = None.
Proof.
  cbv zeta.
  split; [vm_compute; reflexivity|]. split; [vm_compute; reflexivity|].
  refine (let H := C3_record_removed 16 32 slower_than_10ms
                     (sample_ctx 185 186 1000000 4096) "W" _ (mk_val 0 0 1) _
          in conj (proj1 H) (proj1 (proj2 H))).
  vm_compute. reflexivity.
Defined.

(** A return with nothing pending. *)
Lemma C4_return_without_entry_witness :
  trace_return 16 32 unfiltered (sample_ctx 185 186 5000000 0) "R" bpf_init
  = bpf_init.
Proof.
  apply (C4_return_without_entry 16 32 unfiltered
           (sample_ctx 185 186 5000000 0) "R" bpf_init).
  vm_compute. reflexivity.
Defined.

(** A write enters at 0, a read of a file of another file system enters at
    1 ms on the same thread and is turned away by the [f_op] test, the read
    returns at 5 ms: the first record is still there after the second entry,
    and the event carries 5000 us, not the 4000 us since the second entry. *)
Lemma C5_counterexample :
  let first := (sample_ctx 185 186 0 0, kprobe_write (mk_kiocb 1 0)) in
  let second := (sample_ctx 185 186 1000000 0, kprobe_read (mk_kiocb 3 8192)) in
  let ret := (sample_ctx 185 186 5000000 100, kretprobe_read) in
  entryinfo (run BPF_HASH_entries 16 32 unfiltered [first; second] bpf_init)
    !! ctx_id (sample_ctx 185 186 0 0) = Some (mk_val 0 0 1) /\
  exists e,
    events (run BPF_HASH_entries 16 32 unfiltered [first; second; ret] bpf_init)
      = [e] /\
    data_delta_us e = 5000 /\
    data_delta_us e <> (5000000 - 1000000) / 1000.
Proof.
  cbv zeta. split; [vm_compute; reflexivity|].
  eexists. split; [vm_compute; reflexivity|].
  cbn. split; [reflexivity | discriminate].
Qed.

(** Two writes on one thread, at 0 on file 1 and at 1 ms on file 2 at offset
    4096, then a return at 5 ms: the event carries 4000 us and offset 4096. *)
Lemma C5_last_write_wins_witness :
  let c1 := sample_ctx 185 186 0 0 in
  let c2 := sample_ctx 185 186 1000000 0 in
  let c3 := sample_ctx 185 186 5000000 512 in
  let st1 := fire BPF_HASH_entries 16 32 unfiltered bpf_init
               (c1, kprobe_write (mk_kiocb 1 0)) in
  let st2 := fire BPF_HASH_entries 16 32 unfiltered st1
               (c2, kprobe_write (mk_kiocb 2 4096)) in
  entryinfo st2 !! ctx_id c1 = Some (mk_val 1000000 4096 2) /\
  size (entryinfo st2) = size (entryinfo st1) /\
  exists e,
    events (trace_return 16 32 unfiltered c3 "W" st2) = events st2 ++ [e] /\
    data_delta_us e = 4000 /\
    data_offset e = 4096.
Proof.
  cbv zeta.
  destruct (C5_last_write_wins BPF_HASH_entries 16 32 unfiltered bpf_init
              (sample_ctx 185 186 0 0) (kprobe_write (mk_kiocb 1 0))
              (sample_ctx 185 186 1000000 0) (kprobe_write (mk_kiocb 2 4096))
              (mk_val 1000000 4096 2)
              (sample_ctx 185 186 5000000 512) "W")
    as (Hl & _ & Hsz & _ & Hret).
  - reflexivity.
  - reflexivity.
  - reflexivity.
  - reflexivity.
  - eexists. vm_compute. reflexivity.
  - vm_compute. reflexivity.
  - split; [exact Hl|]. split; [exact Hsz|].
    assert (exists e,
      events (trace_return 16 32 unfiltered (sample_ctx 185 186 5000000 512) "W"
                (fire BPF_HASH_entries 16 32 unfiltered
                   (fire BPF_HASH_entries 16 32 unfiltered bpf_init
                      (sample_ctx 185 186 0 0, kprobe_write (mk_kiocb 1 0)))
                   (sample_ctx 185 186 1000000 0,
                    kprobe_write (mk_kiocb 2 4096)))) =
      events (fire BPF_HASH_entries 16 32 unfiltered
                (fire BPF_HASH_entries 16 32 unfiltered bpf_init
                   (sample_ctx 185 186 0 0, kprobe_write (mk_kiocb 1 0)))
                (sample_ctx 185 186 1000000 0, kprobe_write (mk_kiocb 2 4096)))
        ++ [e]) as [e He].
    { eexists. vm_compute. reflexivity. }
    exists e. split; [exact He|].
    destruct (Hret e He) as [Hd Ho].
    split; [rewrite Hd | rewrite Ho]; vm_compute; reflexivity.
Defined.

(** With [-p 185]: a write of process 200 leaves no trace, and in a session
    where processes 185 and 200 both write, the one event is of process 185. *)
Lemma C6_pid_filter_witness :
  let trace :=
    [(sample_ctx 200 201 0 0, kprobe_write (mk_kiocb 1 0));
     (sample_ctx 185 186 100 0, kprobe_write (mk_kiocb 2 0));
     (sample_ctx 200 201 5000 512, kretprobe_write);
     (sample_ctx 185 186 9000 512, kretprobe_write)] in
  fire BPF_HASH_entries 16 32 only_pid_185 bpf_init
    (sample_ctx 200 201 0 0, kprobe_write (mk_kiocb 1 0)) = bpf_init /\
  length (events (run BPF_HASH_entries 16 32 only_pid_185 trace bpf_init))
    = 1%nat /\
  Forall (fun e => data_pid e = 185)
         (events (run BPF_HASH_entries 16 32 only_pid_185 trace bpf_init)) /\
  FILTER_PID unfiltered (ctx_pid (sample_ctx 200 201 0 0)) = false.
Proof.
  cbv zeta.
  pose proof (C6_pid_filter BPF_HASH_entries 16 32 only_pid_185) as [Hsome _].
  pose proof (C6_pid_filter BPF_HASH_entries 16 32 unfiltered) as [_ Hnone].
  destruct (Hsome 185 eq_refl ltac:(lia)) as [Hentry Hevents].
  split.
  { apply Hentry; [reflexivity | vm_compute; discriminate]. }
  split; [vm_compute; reflexivity|].
  split; [apply Hevents | apply Hnone; reflexivity].
Defined.

(** File 3 is not an ext4 file: the read handler ignores it, the write, open
    and fsync handlers record it. *)
Lemma C7_only_read_checks_f_op_witness :
  let ctx := sample_ctx 185 186 700 0 in
  let iocb := mk_kiocb 3 8192 in
  u64 (f_op (kmem ctx) (ki_filp iocb)) <> EXT4_FILE_OPERATIONS unfiltered /\
  trace_read_entry BPF_HASH_entries unfiltered ctx iocb bpf_init = bpf_init /\
  entryinfo (trace_write_entry BPF_HASH_entries unfiltered ctx iocb bpf_init)
    !! ctx_id ctx = Some (mk_val 700 8192 3) /\
  entryinfo (trace_open_entry BPF_HASH_entries unfiltered ctx 77 3 bpf_init)
    !! ctx_id ctx = Some (mk_val 700 0 3) /\
  entryinfo (trace_fsync_entry BPF_HASH_entries unfiltered ctx 3 bpf_init)
    !! ctx_id ctx = Some (mk_val 700 0 3).
Proof.
  cbv zeta.
  assert (Hne : u64 (f_op (kmem (sample_ctx 185 186 700 0))
                       (ki_filp (mk_kiocb 3 8192)))
                <> EXT4_FILE_OPERATIONS unfiltered)
    by (vm_compute; discriminate).
  split; [exact Hne|].
  destruct (C7_only_read_checks_f_op BPF_HASH_entries unfiltered bpf_init
              (sample_ctx 185 186 700 0) (mk_kiocb 3 8192) 77)
    as (Hread & _ & Hwrite & Hopen & Hfsync & _).
  - reflexivity.
  - cbn. discriminate.
  - right. vm_compute. lia.
  - split; [exact (Hread Hne)|].
    split; [exact Hwrite|]. split; [exact Hopen | exact Hfsync].
Defined.

(** The name of file 4 has length zero: its open is not reported. *)
Lemma C8_zero_length_name_witness :
  let ctx := sample_ctx 185 186 9000000 0 in
  let st := fire BPF_HASH_entries 16 32 unfiltered bpf_init
              (sample_ctx 185 186 0 0, kprobe_open 77 4) in
  entryinfo st !! ctx_id ctx = Some (mk_val 0 0 4) /\
  events (trace_return 16 32 unfiltered ctx "O" st) = events st /\
  trace_return 16 32 unfiltered ctx "O" st = entryinfo_delete (ctx_id ctx) st.
Proof.
  cbv zeta. split; [vm_compute; reflexivity|].
  apply (C8_zero_length_name 16 32 unfiltered (sample_ctx 185 186 9000000 0)
           "O" _ (mk_val 0 0 4)).
  - vm_compute. reflexivity.
  - reflexivity.
  - vm_compute. reflexivity.
Defined.

(** An open with a null file leaves the state alone; the record of a write
    pending in a session has a non-null handle. *)
Lemma C9_stored_handle_non_null_witness :
  trace_open_entry BPF_HASH_entries unfiltered (sample_ctx 185 186 0 0) 77 0
    bpf_init = bpf_init /\
  val_fp (mk_val 100 0 2) <> 0.
Proof.
  pose proof (C9_stored_handle_non_null BPF_HASH_entries 16 32 unfiltered)
    as (Hnull & _ & _ & Hrun).
  split.
  - apply (Hnull bpf_init (sample_ctx 185 186 0 0) (mk_kiocb 0 0) 77).
    reflexivity.
  - apply (Hrun [(sample_ctx 185 188 50 0, kprobe_open 77 0);
                 (sample_ctx 185 186 100 0, kprobe_write (mk_kiocb 2 0))]
                (ctx_id (sample_ctx 185 186 100 0))).
    vm_compute. reflexivity.
Defined.

(** A write that fails with ENOSPC (-28 in the return register) is reported
    with size 4294967268. *)
Lemma C10_size_is_truncated_return_value_witness :
  let ctx := sample_ctx 185 186 2000000 (2 ^ 64 - 28) in
  let st := fire BPF_HASH_entries 16 32 unfiltered bpf_init
              (sample_ctx 185 186 0 0, kprobe_write (mk_kiocb 1 0)) in
  exists e,
    events (trace_return 16 32 unfiltered ctx "W" st) = events st ++ [e] /\
    data_size e = 4294967268.
Proof.
  cbv zeta.
  destruct (proj2 (C10_size_is_truncated_return_value 16 32 unfiltered
                     (sample_ctx 185 186 2000000 (2 ^ 64 - 28)) "W"
                     (fire BPF_HASH_entries 16 32 unfiltered bpf_init
                        (sample_ctx 185 186 0 0,
                         kprobe_write (mk_kiocb 1 0))))
                  (mk_val 0 0 1) 28)
    as (e & He & Hs & _).
  - vm_compute. reflexivity.
  - reflexivity.
  - vm_compute. discriminate.
  - lia.
  - vm_compute. reflexivity.
  - exists e. split; [exact He | rewrite Hs; reflexivity].
Defined.

(** A read return fired twice. *)
Lemma X3_second_return_is_silent_witness :
  let st := fire BPF_HASH_entries 16 32 unfiltered bpf_init
              (sample_ctx 185 186 0 0, kprobe_read (mk_kiocb 1 0)) in
  let once := trace_return 16 32 unfiltered (sample_ctx 185 186 3000000 512)
                "R" st in
  length (events once) = 1%nat /\
  trace_return 16 32 unfiltered (sample_ctx 185 186 3000100 0) "R" once = once.
Proof.
  cbv zeta. split; [vm_compute; reflexivity|].
  apply (X3_second_return_is_silent 16 32 unfiltered). reflexivity.
Defined.

(** A write of thread 186 is reported alike with or without a whole
    operation of thread 187 before its return. *)
Lemma X4_other_contexts_do_not_interfere_witness :
  let st := fire BPF_HASH_entries 16 32 unfiltered bpf_init
              (sample_ctx 185 186 0 0, kprobe_write (mk_kiocb 1 0)) in
  let others :=
    [(sample_ctx 185 187 100 0, kprobe_open 77 2);
     (sample_ctx 185 187 900 0, kretprobe_open)] in
  let ctx := sample_ctx 185 186 2000000 512 in
  exists out,
    events (trace_return 16 32 unfiltered ctx "W" st) = events st ++ out /\
    events (trace_return 16 32 unfiltered ctx "W"
              (run BPF_HASH_entries 16 32 unfiltered others st))
    = events (run BPF_HASH_entries 16 32 unfiltered others st) ++ out.
Proof.
  cbv zeta.
  apply (X4_other_contexts_do_not_interfere BPF_HASH_entries 16 32 unfiltered).
  repeat constructor; vm_compute; discriminate.
Defined.

(** A write entry at offset 4096 of file 1 whose pending record is picked up
    by a read return: the event says R, offset 4096, 3000 us. *)
Lemma X5_event_of_paired_operation_witness :
  let st2 := run BPF_HASH_entries 16 32 unfiltered []
               (fire BPF_HASH_entries 16 32 unfiltered bpf_init
                  (sample_ctx 185 186 0 0, kprobe_write (mk_kiocb 1 4096))) in
  exists e,
    events (fire BPF_HASH_entries 16 32 unfiltered st2
              (sample_ctx 185 186 3000000 512, kretprobe_read))
    = events st2 ++ [e] /\
    data_type e = "R"%char /\ data_offset e = 4096 /\ data_delta_us e = 3000.
Proof.
  cbv zeta.
  assert (exists e,
    events (fire BPF_HASH_entries 16 32 unfiltered
              (run BPF_HASH_entries 16 32 unfiltered []
                 (fire BPF_HASH_entries 16 32 unfiltered bpf_init
                    (sample_ctx 185 186 0 0, kprobe_write (mk_kiocb 1 4096))))
              (sample_ctx 185 186 3000000 512, kretprobe_read))
    = events (run BPF_HASH_entries 16 32 unfiltered []
                (fire BPF_HASH_entries 16 32 unfiltered bpf_init
                   (sample_ctx 185 186 0 0, kprobe_write (mk_kiocb 1 4096))))
      ++ [e]) as [e He].
  { eexists. vm_compute. reflexivity. }
  exists e. split; [exact He|].
  rewrite (X5_event_of_paired_operation BPF_HASH_entries 16 32 unfiltered
             bpf_init (sample_ctx 185 186 0 0) (kprobe_write (mk_kiocb 1 4096))
             [] (sample_ctx 185 186 3000000 512) kretprobe_read "R" e).
  - vm_compute. repeat split.
  - reflexivity.
  - eexists. vm_compute. reflexivity.
  - constructor.
  - reflexivity.
  - reflexivity.
  - exact He.
Defined.

(** [ext4slower -1]: a read of 3 s is not reported. *)
Lemma X7_negative_threshold_reports_nothing_witness :
  events (run BPF_HASH_entries 16 32 (mk_session (-1) None sample_ops)
            [(sample_ctx 185 186 0 0, kprobe_read (mk_kiocb 1 0));
             (sample_ctx 185 186 3000000000 512, kretprobe_read)] bpf_init)
  = [].
Proof.
  apply (X7_negative_threshold_reports_nothing BPF_HASH_entries 16 32
           (mk_session (-1) None sample_ops)).
  cbn. lia.
Defined.

(** An empty line before the symbol. *)
Lemma X10_short_line_raises_witness :
  resolve_ops py_isspace
    [String "010" EmptyString;
     "ffffffff82042a40 r ext4_file_operations" +:+ String "010" EmptyString]
  = ValueError.
Proof.
  apply (X10_short_line_raises py_isspace []
           (String "010" EmptyString)
           ["ffffffff82042a40 r ext4_file_operations"
            +:+ String "010" EmptyString]).
  - constructor.
  - vm_compute. lia.
Defined.

(** The symbol in a module, after another symbol. *)
Lemma X11_symbol_line_is_found_witness :
  resolve_ops py_isspace
    ["ffffffff81000000 T _stext" +:+ String "010" EmptyString;
     "ffffffffc0a3b040" +:+ " " +:+ "r" +:+ " " +:+ "ext4_file_operations"
       +:+ String "009" ("[ext4]" +:+ String "010" EmptyString)]
  = Resolved "0xffffffffc0a3b040".
Proof.
  apply (X11_symbol_line_is_found py_isspace
           ["ffffffff81000000 T _stext" +:+ String "010" EmptyString]
           "ffffffffc0a3b040" "r"
           (String "009" ("[ext4]" +:+ String "010" EmptyString)) []).
  - reflexivity.
  - constructor; [|constructor].
    exists "ffffffff81000000"%string, "T"%string, "_stext"%string.
    split; [vm_compute; reflexivity | vm_compute; discriminate].
  - reflexivity.
  - reflexivity.
  - right. eexists. reflexivity.
Defined.

Lemma X12_resolved_text_is_one_token_witness :
  exists addr,
    "0xffffffff82042a40"%string = "0x" +:+ addr /\
    count_char " " addr = 0%nat /\
    exists line tail,
      line ∈ ["ffffffff82042a40 r ext4_file_operations"
              +:+ String "010" EmptyString] /\
      line = addr +:+ " " +:+ tail.
Proof.
  apply (X12_resolved_text_is_one_token py_isspace).
  vm_compute. reflexivity.
Defined.

(** The row of a 3 ms read. *)
Lemma X14_csv_fields_witness :
  str_split "," None
    (print_event_csv (mk_event 103000 "cat" 185 "R" 4096 0 3000 "data.txt"))
  = ["103000"; "cat"; "185"; "R"; "4096"; "0"; "3000"; "data.txt"]%string.
Proof.
  apply (X14_csv_fields (mk_event 103000 "cat" 185 "R" 4096 0 3000 "data.txt"));
    reflexivity.
Defined.

Lemma X15_csv_row_determines_event_witness :
  mk_event 103000 "cat" 185 "R" 4096 0 3000 "data.txt"
  = mk_event (103 * 1000) "cat" 185 "R" (2 ^ 12) 0 3000 "data.txt".
Proof.
  apply X15_csv_row_determines_event; reflexivity.
Defined.
